(** * The voice pipeline of the assistant's setup scripts

  A shallow embedding of [Scripts/setup_kokoro.py] and
  [Scripts/setup_vosk.py] and of the programs they write to disk:

  - [kokoro_server.py], the text-to-speech HTTP server ([load_model],
    [synthesize_speech], [health_check], [get_voices], [synthesize],
    [test_connection]);
  - [test_vosk.py], the microphone test, as the text that is written and
    what the interpreter makes of it.

  Python globals, the numpy random generator, the files on disk and the
  calls into torch, torchaudio and flask are explicit: the server runs in
  a state-and-exception monad over a [world], the set-up scripts in one
  over a [machine].

  The functions are modelled as they are written.  The statements at
  module level of [kokoro_server.py] (creating the Flask application,
  [CORSS(app)], the [__main__] block) are not part of the model. *)

From Stdlib Require Import ZArith String Ascii Floats.SpecFloat.
From stdpp Require Import base option list gmap strings pretty.

Open Scope Z_scope.

(** ** Python floats

  CPython's [float] is IEEE 754 binary64; the operations the server uses
  are taken from the Standard Library's executable specification. *)

Module PyFloat.

Definition prec : Z := 53.
Definition emax : Z := 1024.

(** [float(n)] for an integer [n]. *)
Definition py_float (n : Z) : spec_float := binary_normalize prec emax n 0 false.

(** [x * y] on floats. *)
Definition mul (x y : spec_float) : spec_float := SFmul prec emax x y.

(** The literal [0.1]: the double nearest to one tenth. *)
Definition tenth : spec_float := S754_finite false 7205759403792794 (-56).

(** The literal [1.0]. *)
Definition one : spec_float := py_float 1.

(** [int(x)]: truncation towards zero; [None] where CPython raises
    (infinities and NaN). *)
Definition py_int (x : spec_float) : option Z :=
  match x with
  | S754_zero _ => Some 0
  | S754_finite s m e =>
      let a := Z.shiftl (Z.pos m) e in
      Some (if s then - a else a)
  | S754_infinity _ | S754_nan => None
  end.

(** Truth value of a float: zero of either sign is false. *)
Definition truthy (x : spec_float) : bool :=
  match x with
  | S754_zero _ => false
  | _ => true
  end.

End PyFloat.

(** ** JSON values as Python objects *)

Module Json.

#[warnings="-register-all"]
Inductive json : Type :=
| JNull
| JBool (b : bool)
| JInt (n : Z)
| JFloat (x : spec_float)
| JStr (s : string)
| JArr (l : list json)
| JObj (m : gmap string json).

(** Truth value of an object, as [not data] sees it. *)
Definition truthy (v : json) : bool :=
  match v with
  | JNull => false
  | JBool b => b
  | JInt n => negb (n =? 0)
  | JFloat x => PyFloat.truthy x
  | JStr s => negb (String.eqb s "")
  | JArr l => match l with [] => false | _ => true end
  | JObj m => negb (bool_decide (m = ∅))
  end.

(** [p in s] on strings: [p] occurs in [s] as a substring. *)
Fixpoint substring_of (p s : string) : bool :=
  String.prefix p s ||
  match s with
  | EmptyString => false
  | String _ s' => substring_of p s'
  end.

Definition is_str (k : string) (v : json) : bool :=
  match v with
  | JStr s => String.eqb s k
  | _ => false
  end.

End Json.

(** ** The synthesis server, [kokoro_server.py] *)

Module Kokoro.
Import Json.

(** *** Exceptions *)

(** Interpreter and library messages vary between versions, so an
    exception raised outside the server's own code is kept symbolic;
    [SynthesisFailed e] is [RuntimeError(f"Speech synthesis failed: {e}")]. *)
Inductive py_exn : Type :=
| FileNotFoundError (msg : string)
| RuntimeError (msg : string)
| SynthesisFailed (cause : py_exn)
| TypeError
| AttributeError
| ValueError
| LibraryError (library : string).

Inductive outcome (A : Type) : Type :=
| Ret (a : A)
| Raise (e : py_exn).
Arguments Ret {A} a.
Arguments Raise {A} e.

(** *** The world the server runs in *)

(** One sample of the audio buffer, a float32 after [astype]. *)
Definition sample : Type := spec_float.

(** An object that [torch.load] unpickles, other than [None]: the
    weights it carries and whether it has an [eval] method. *)
Record torch_object : Type := TorchObject {
  weights : nat;
  has_eval : bool
}.

(** [kokoro_models/kokoro_model.pth] as [torch.load] finds it: no pickle
    at all, the pickle of an object, or the pickle of [None]. *)
Inductive model_artifact : Type :=
| Corrupt
| Pickled (o : torch_object)
| PickledNone.

(** [kokoro_models/config.json] as [json.load] finds it. *)
Inductive config_artifact : Type :=
| Malformed
| Parsed (j : json).

(** A file made by [tempfile.NamedTemporaryFile]: empty until
    [torchaudio.save] writes the samples and their rate. *)
Inductive tmp_file : Type :=
| Empty
| Wav (samples : list sample) (rate : Z).

(** Calls that leave the handler's own code. *)
Inductive event : Type :=
| ReadModel
| JsonLoadConfig
| TorchLoad
| ModelEval
| Randn (n : Z)
| TmpCreate (f : nat)
| TorchaudioSave (f : nat)
| SendFile (f : nat).

Record world : Type := World {
  model : option torch_object;            (* global [model]; [None] is Python's [None] *)
  config : option json;                   (* global [config] *)
  np_random : nat → sample;               (* the draws numpy's global generator gives next *)
  model_file : option model_artifact;     (* [None]: the path does not exist *)
  config_file : option config_artifact;
  tmp_dir : gmap nat tmp_file;            (* temporary files on disk, by name *)
  trace : list event
}.

Definition set_model (o : option torch_object) (w : world) : world :=
  World o (config w) (np_random w) (model_file w) (config_file w) (tmp_dir w) (trace w).
Definition set_config (c : option json) (w : world) : world :=
  World (model w) c (np_random w) (model_file w) (config_file w) (tmp_dir w) (trace w).
Definition set_np_random (r : nat → sample) (w : world) : world :=
  World (model w) (config w) r (model_file w) (config_file w) (tmp_dir w) (trace w).
Definition set_tmp_dir (d : gmap nat tmp_file) (w : world) : world :=
  World (model w) (config w) (np_random w) (model_file w) (config_file w) d (trace w).
Definition log (e : event) (w : world) : world :=
  World (model w) (config w) (np_random w) (model_file w) (config_file w) (tmp_dir w)
        (trace w ++ [e]).

(** *** State and exceptions *)

Definition M (A : Type) : Type := world → outcome A * world.

Definition ret {A} (a : A) : M A := λ w, (Ret a, w).
Definition raise {A} (e : py_exn) : M A := λ w, (Raise e, w).
Definition bind {A B} (m : M A) (k : A → M B) : M B :=
  λ w, match m w with
       | (Ret a, w') => k a w'
       | (Raise e, w') => (Raise e, w')
       end.
(** [try: m except Exception as e: h e]; the state reached when the
    exception was raised is kept. *)
Definition try_except {A} (m : M A) (h : py_exn → M A) : M A :=
  λ w, match m w with
       | (Ret a, w') => (Ret a, w')
       | (Raise e, w') => h e w'
       end.
Definition get : M world := λ w, (Ret w, w).
Definition modify (f : world → world) : M unit := λ w, (Ret tt, f w).
Definition emit (e : event) : M unit := modify (log e).

#[export] Instance M_ret : MRet M := @ret.
#[export] Instance M_bind : MBind M := λ A B k m, bind m k.

(** *** Operations on request data *)

(** [k in v] *)
Definition py_in (k : string) (v : json) : M bool :=
  match v with
  | JObj m => ret (bool_decide (is_Some (m !! k)))
  | JArr l => ret (existsb (is_str k) l)
  | JStr s => ret (substring_of k s)
  | JNull | JBool _ | JInt _ | JFloat _ => raise TypeError
  end.

(** [v[k]] for a string [k] *)
Definition py_getitem (v : json) (k : string) : M json :=
  match v with
  | JObj m => match m !! k with
              | Some x => ret x
              | None => raise (LibraryError "KeyError")
              end
  | _ => raise TypeError
  end.

(** [v.get(k, d)] *)
Definition py_get (v : json) (k : string) (d : json) : M json :=
  match v with
  | JObj m => ret (default d (m !! k))
  | _ => raise AttributeError
  end.

(** [len(v)] *)
Definition py_len (v : json) : M Z :=
  match v with
  | JStr s => ret (Z.of_nat (String.length s))
  | JArr l => ret (Z.of_nat (length l))
  | JObj m => ret (Z.of_nat (size m))
  | JNull | JBool _ | JInt _ | JFloat _ => raise TypeError
  end.

(** [int(x)] *)
Definition py_int (x : spec_float) : M Z :=
  match PyFloat.py_int x with
  | Some n => ret n
  | None => raise ValueError
  end.

(** [np.random.randn(n).astype(np.float32)]: the next [n] draws of the
    generator, which moves past them. *)
Definition randn (n : Z) : M (list sample) :=
  if n <? 0 then raise ValueError
  else
    w ← get;
    emit (Randn n);;
    modify (set_np_random (λ i, np_random w (Z.to_nat n + i)%nat));;
    ret (map (np_random w) (seq 0 (Z.to_nat n))).

(** *** Globals and files *)

(** [with open(config_path, 'r') as f: json.load(f)] *)
Definition json_load_config : M json :=
  w ← get;
  emit JsonLoadConfig;;
  match config_file w with
  | Some (Parsed j) => ret j
  | Some Malformed => raise (LibraryError "json")
  | None => raise (FileNotFoundError "config.json")
  end.

(** [torch.load(model_path, map_location='cpu')]: the object in the
    pickle, which may be [None]. *)
Definition torch_load : M (option torch_object) :=
  w ← get;
  emit TorchLoad;;
  match model_file w with
  | Some (Pickled o) => ret (Some o)
  | Some PickledNone => ret None
  | Some Corrupt => raise (LibraryError "torch")
  | None => raise (FileNotFoundError "kokoro_model.pth")
  end.

(** [model.eval()]; [None] has no [eval]. *)
Definition model_eval (o : option torch_object) : M unit :=
  emit ModelEval;;
  match o with
  | Some t => if has_eval t then ret tt else raise AttributeError
  | None => raise AttributeError
  end.

Definition load_model : M unit :=
  w ← get;
  if negb (bool_decide (is_Some (model_file w)))
     || negb (bool_decide (is_Some (config_file w)))
  then raise (FileNotFoundError "Model files not found. Please run setup_kokoro.py first.")
  else
    cfg ← json_load_config;
    modify (set_config (Some cfg));;
    try_except
      (o ← torch_load;
       modify (set_model o);;
       model_eval o)
      (λ e, raise e).

Definition sample_rate : Z := 22050.

Definition synthesize_speech (text voice_id speed : json) : M (list sample * Z) :=
  w ← get;
  emit ReadModel;;
  match model w with
  | None => raise (RuntimeError "Model not loaded")
  | Some _ =>
      try_except
        (n ← py_len text;
         let duration := PyFloat.mul (PyFloat.py_float n) PyFloat.tenth in
         k ← py_int (PyFloat.mul (PyFloat.py_float sample_rate) duration);
         audio_data ← randn k;
         ret (audio_data, sample_rate))
        (λ e, raise (SynthesisFailed e))
  end.

(** *** Responses *)

(** [Json s b] is [jsonify(b), s]; [Error s e] is
    [jsonify({"error": str(e)}), s]; [File f c m d] is what [send_file]
    builds for the temporary file [f] holding [c]. *)
Inductive response : Type :=
| Json (status : Z) (body : json)
| Error (status : Z) (e : py_exn)
| File (f : nat) (content : tmp_file) (mimetype download_name : string).

Definition status_of (r : response) : Z :=
  match r with
  | Json s _ | Error s _ => s
  | File _ _ _ _ => 200
  end.

Definition error_body (msg : string) : json := JObj {[ "error" := JStr msg ]}.

Definition text_required : response := Json 400 (error_body "Text is required").
Definition text_too_long : response :=
  Json 400 (error_body "Text too long (max 1000 characters)").

Definition health_check : M response :=
  w ← get;
  emit ReadModel;;
  ret (Json 200 (JObj (<[ "status" := JStr "healthy" ]>
                      (<[ "model_loaded" := JBool (bool_decide (is_Some (model w))) ]>
                      {[ "version" := JStr "1.0.0" ]})))).

Definition voice (id name language : string) : json :=
  JObj (<[ "id" := JStr id ]> (<[ "name" := JStr name ]> {[ "language" := JStr language ]})).

Definition voices : list json :=
  [ voice "default" "Default Voice" "en-US";
    voice "female1" "Female Voice 1" "en-US";
    voice "male1" "Male Voice 1" "en-US" ].

Definition get_voices : M response :=
  ret (Json 200 (JObj {[ "voices" := JArr voices ]})).

(** The [id] entries of the catalog, in order. *)
Definition voice_ids : list json :=
  omap (λ v, match v with JObj m => m !! "id" | _ => None end) voices.

(** *** The request and the libraries behind the handler *)

(** [request.get_json()] either gives the parsed body or raises. *)
Record request : Type := Request {
  get_json : outcome json
}.

(** Whether [torchaudio.save] and [send_file] go through for this
    request. *)
Record backend : Type := Backend {
  torchaudio_save_ok : bool;
  send_file_ok : bool
}.

(** [tempfile.NamedTemporaryFile(suffix='.wav', delete=False)]: a new,
    empty file under a name not in use. *)
Definition named_temporary_file : M nat :=
  w ← get;
  let f := fresh (dom (tmp_dir w)) in
  emit (TmpCreate f);;
  modify (set_tmp_dir (<[ f := Empty ]> (tmp_dir w)));;
  ret f.

Definition torchaudio_save (io : backend) (f : nat) (audio : list sample) (rate : Z)
  : M unit :=
  emit (TorchaudioSave f);;
  if torchaudio_save_ok io
  then w ← get; modify (set_tmp_dir (<[ f := Wav audio rate ]> (tmp_dir w)))
  else raise (LibraryError "torchaudio").

Definition send_file (io : backend) (f : nat) (mimetype download_name : string)
  : M response :=
  emit (SendFile f);;
  if send_file_ok io
  then w ← get; ret (File f (default Empty (tmp_dir w !! f)) mimetype download_name)
  else raise (LibraryError "flask").

Definition lift {A} (o : outcome A) : M A :=
  match o with
  | Ret a => ret a
  | Raise e => raise e
  end.

(** [missing] is [not data or 'text' not in data]: the membership test
    runs only on a true [data]. *)
Definition synthesize (io : backend) (req : request) : M response :=
  try_except
    (data ← lift (get_json req);
     missing ← (if negb (truthy data) then ret true
                else b ← py_in "text" data; ret (negb b));
     if (missing : bool) then ret text_required
     else
       text ← py_getitem data "text";
       voice_id ← py_get data "voice_id" (JStr "default");
       speed ← py_get data "speed" (JFloat PyFloat.one);
       n ← py_len text;
       if 1000 <? n then ret text_too_long
       else
         '(audio_data, rate) ← synthesize_speech text voice_id speed;
         f ← named_temporary_file;
         torchaudio_save io f audio_data rate;;
         send_file io f "audio/wav" "speech.wav")
    (λ e, ret (Error 500 e)).

(** *** Notions used in the statements *)

(** [int(sample_rate * (n * 0.1))] *)
Definition audio_length (n : Z) : option Z :=
  PyFloat.py_int
    (PyFloat.mul (PyFloat.py_float sample_rate)
                 (PyFloat.mul (PyFloat.py_float n) PyFloat.tenth)).

(** The next [k] draws of the generator of [w]. *)
Definition drawn (k : Z) (w : world) : list sample :=
  map (np_random w) (seq 0 (Z.to_nat k)).

(** The world after a call of [synthesize_speech] that made [k] samples. *)
Definition after_synthesis (k : Z) (w : world) : world :=
  World (model w) (config w) (λ i, np_random w (Z.to_nat k + i)%nat)
        (model_file w) (config_file w) (tmp_dir w)
        (trace w ++ [ReadModel; Randn k]).

(** What [synthesize] does once the text has passed both checks. *)
Definition deliver (io : backend) (text voice_id speed : json) : M response :=
  '(audio_data, rate) ← synthesize_speech text voice_id speed;
  f ← named_temporary_file;
  torchaudio_save io f audio_data rate;;
  send_file io f "audio/wav" "speech.wav".

Definition internal_error (e : py_exn) : M response := ret (Error 500 e).

(** The world after [deliver] made [k] samples: the temporary file is
    there, written if [torchaudio.save] went through. *)
Definition delivered (io : backend) (k : Z) (w : world) : world :=
  let f := fresh (dom (tmp_dir w)) in
  World (model w) (config w) (λ i, np_random w (Z.to_nat k + i)%nat)
        (model_file w) (config_file w)
        (if torchaudio_save_ok io
         then <[ f := Wav (drawn k w) sample_rate ]> (<[ f := Empty ]> (tmp_dir w))
         else <[ f := Empty ]> (tmp_dir w))
        (trace w ++ [ReadModel; Randn k; TmpCreate f; TorchaudioSave f]
                 ++ (if torchaudio_save_ok io then [SendFile f] else [])).

(** The answer of [synthesize] for a text that gives [k] samples. *)
Definition served (io : backend) (k : Z) (w : world) : response :=
  if torchaudio_save_ok io
  then if send_file_ok io
       then File (fresh (dom (tmp_dir w))) (Wav (drawn k w) sample_rate)
                 "audio/wav" "speech.wav"
       else Error 500 (LibraryError "flask")
  else Error 500 (LibraryError "torchaudio").

(** *** Worlds and requests used as examples *)

(** A generator whose draws are 0.0, 1.0, 2.0, ... *)
Definition counting : nat → sample := λ i, PyFloat.py_float (Z.of_nat i).

Definition kokoro_v1 : torch_object := TorchObject 1 true.
Definition kokoro_v2 : torch_object := TorchObject 2 true.

(** Both artifacts on disk, nothing loaded yet. *)
Definition installed : world :=
  World None None counting (Some (Pickled kokoro_v1)) (Some (Parsed (JObj ∅))) ∅ [].

(** The server after a successful [load_model], with no request served. *)
Definition ready : world :=
  World (Some kokoro_v1) (Some (JObj ∅)) counting
        (Some (Pickled kokoro_v1)) (Some (Parsed (JObj ∅))) ∅ [].

Definition post (body : gmap string json) : request := Request (Ret (JObj body)).

Definition all_fine : backend := Backend true true.

(** Every way a call of [synthesize] can end, with the world it leaves
    behind: no text in the body, rejected for another reason without
    touching anything, stopped at the missing model, or gone through
    synthesis on a text of [n] items. *)
Inductive handled (io : backend) (req : request) (w : world)
  : outcome response * world → Prop :=
| NoText :
    (∀ m text, get_json req = Ret (JObj m) → m !! "text" = Some text → False) →
    handled io req w (Ret text_required, w)
| Rejected resp :
    resp = text_too_long ∨ (∃ e, resp = Error 500 e) →
    handled io req w (Ret resp, w)
| NotLoaded :
    model w = None →
    handled io req w (Ret (Error 500 (RuntimeError "Model not loaded")), log ReadModel w)
| Served m text n o :
    get_json req = Ret (JObj m) →
    m !! "text" = Some text →
    py_len text = ret n →
    0 ≤ n ≤ 1000 →
    model w = Some o →
    handled io req w (Ret (served io (2205 * n) w), delivered io (2205 * n) w).

(** The model artifact on disk is replaced, as a new download does. *)
Definition replace_artifact (a : model_artifact) (w : world) : world :=
  World (model w) (config w) (np_random w) (Some a) (config_file w) (tmp_dir w) (trace w).

(** The world after a [load_model] that read [cfg] and unpickled [o]. *)
Definition loaded (cfg : json) (o : torch_object) (w : world) : world :=
  World (Some o) (Some cfg) (np_random w) (model_file w) (config_file w) (tmp_dir w)
        (trace w ++ [JsonLoadConfig; TorchLoad; ModelEval]).

(** The world after a [load_model] that read [cfg] and unpickled [None]. *)
Definition loaded_none (cfg : json) (w : world) : world :=
  World None (Some cfg) (np_random w) (model_file w) (config_file w) (tmp_dir w)
        (trace w ++ [JsonLoadConfig; TorchLoad; ModelEval]).

(** *** The test endpoint *)

(** The two answers of [test_connection]: [TestSuccess n r] is
    [jsonify({"status": "success", "message": ..., "audio_length": n,
    "sample_rate": r})] with status 200, [TestError e] is
    [jsonify({"status": "error", "message": str(e)}), 500]. *)
Inductive test_answer : Type :=
| TestSuccess (audio_length sample_rate : Z)
| TestError (e : py_exn).

Definition test_connection : M test_answer :=
  try_except
    ('(audio_data, rate) ←
       synthesize_speech (JStr "Hello, this is a test.") (JStr "default")
                         (JFloat PyFloat.one);
     ret (TestSuccess (Z.of_nat (length audio_data)) rate))
    (λ e, ret (TestError e)).

(** The [model_loaded] entry of a health answer. *)
Definition model_loaded (r : response) : option json :=
  match r with
  | Json _ (JObj m) => m !! "model_loaded"
  | _ => None
  end.

(** The exception of [load_model] when an artifact is not on disk. *)
Definition files_missing : py_exn :=
  FileNotFoundError "Model files not found. Please run setup_kokoro.py first.".

End Kokoro.

(** ** The set-up scripts, [setup_vosk.py] and [setup_kokoro.py]

  The scripts print, read the keyboard, run pip, fetch files and write
  to the working directory.  They run in a state-and-exception monad over
  a [machine]; what the interpreter, pip, the network and the archives do
  is read from a [host]. *)

Module Setup.
Import Json.

(** *** Output *)

Definition LF : string := String (ascii_of_nat 10) "".
Definition CR : string := String (ascii_of_nat 13) "".

(** The double quote, and the three of them around a docstring. *)
Definition DQ : string := String (ascii_of_nat 34) "".
Definition DQ3 : string := DQ +:+ DQ +:+ DQ.

(** One [print]: the text and the [end] that follows it. *)
Record line : Type := Line {
  text : string;
  ending : string
}.

(** [print(s)] *)
Definition say (s : string) : line := Line s LF.

(** [c * n] for a one-character string [c]. *)
Definition times (c : string) (n : nat) : string := String.concat "" (repeat c n).

(** *** Exceptions and results *)

(** The exceptions the scripts can meet.  [Failure msg] is an exception
    raised inside a library (pip, urllib, zipfile, json); [msg] is its
    [str(e)]. *)
Inductive error : Type :=
| TypeError
| SyntaxError
| EOFError
| KeyError (key : string)
| FileExistsError (path : string)
| FileNotFoundError (path : string)
| IsADirectoryError (path : string)
| Failure (msg : string).

(** A call returns a value, raises, or ends the process with
    [sys.exit(code)]. *)
Inductive result (A : Type) : Type :=
| Value (a : A)
| Raised (e : error)
| Exited (code : Z).
Arguments Value {A} a.
Arguments Raised {A} e.
Arguments Exited {A} code.

(** *** Files *)

(** What a file holds: a JSON text, a script written out by the set-up
    (by its name, or as the text itself where the text is looked into),
    what [urlretrieve] stored (all of it, or the part that arrived), or a
    member of an archive. *)
Inductive content : Type :=
| JsonText (j : json)
| Script (name : string)
| Source (text : string)
| Fetched (url : string)
| Partial (url : string)
| Member (archive : string).

Inductive node : Type :=
| Dir
| File (c : content) (executable : bool).

(** *** The host *)

(** An item of [sys.version_info]: [major], [minor], [micro] and
    [serial] are integers, [releaselevel] is a string. *)
Inductive item : Type :=
| IInt (n : Z)
| IStr (s : string).

(** What [urlretrieve] meets at a URL: the connection is refused, or the
    transfer starts with the announced size ([-1] when the server
    announces none), reads so many blocks of 8192 bytes and then ends, or
    breaks off with an exception. *)
Inductive transfer : Type :=
| Refused (e : error)
| Transfer (size : Z) (blocks : nat) (broken : option error).

Record host : Type := Host {
  version_info : list item;                 (* [sys.version_info] *)
  os_name : string;                         (* [os.name] *)
  pip_install : string → option string;     (* [None]: pip exits with 0; else [str(e)] *)
  urlopen : string → transfer;
  unzip : content → string → list (string * node) * option error;
                                            (* the members [extractall] writes, and the
                                               exception that stops it if it does not finish *)
  join : string → string → string;          (* [str(Path(a) / b)] *)
  describe : error → string;                (* [str(e)] *)
  strip_lower : string → string;            (* [s.strip().lower()] *)
  disk_free : Z;                            (* [shutil.disk_usage('.').free] *)
  format_1f : spec_float → string           (* [f"{x:.1f}"] *)
}.

(** *** The machine *)

Record machine : Type := Machine {
  fs : gmap string node;            (* the working directory, by path *)
  stdin : list string;              (* the lines [input] has yet to read *)
  stdout : list line;
  pip_log : list string;            (* the requirements pip was run for *)
  net_log : list string             (* the URLs opened *)
}.

Definition set_fs (f : gmap string node) (m : machine) : machine :=
  Machine f (stdin m) (stdout m) (pip_log m) (net_log m).
Definition set_stdin (l : list string) (m : machine) : machine :=
  Machine (fs m) l (stdout m) (pip_log m) (net_log m).
Definition put (l : line) (m : machine) : machine :=
  Machine (fs m) (stdin m) (stdout m ++ [l]) (pip_log m) (net_log m).
Definition log_pip (r : string) (m : machine) : machine :=
  Machine (fs m) (stdin m) (stdout m) (pip_log m ++ [r]) (net_log m).
Definition log_net (u : string) (m : machine) : machine :=
  Machine (fs m) (stdin m) (stdout m) (pip_log m) (net_log m ++ [u]).

Definition S (A : Type) : Type := machine → result A * machine.

Definition ret {A} (a : A) : S A := λ m, (Value a, m).
Definition raise {A} (e : error) : S A := λ m, (Raised e, m).
Definition exit {A} (code : Z) : S A := λ m, (Exited code, m).
Definition bind {A B} (c : S A) (k : A → S B) : S B :=
  λ m, match c m with
       | (Value a, m') => k a m'
       | (Raised e, m') => (Raised e, m')
       | (Exited code, m') => (Exited code, m')
       end.
(** [try: c except Exception as e: handler e]; [sys.exit] passes
    through. *)
Definition try_except {A} (c : S A) (handler : error → S A) : S A :=
  λ m, match c m with
       | (Raised e, m') => handler e m'
       | other => other
       end.
Definition get : S machine := λ m, (Value m, m).
Definition modify (f : machine → machine) : S unit := λ m, (Value tt, f m).

#[export] Instance S_ret : MRet S := @ret.
#[export] Instance S_bind : MBind S := λ A B k c, bind c k.

(** [for x in xs: body x], where [body] answers [Some r] to return [r]
    from the enclosing function; [None] when the loop runs to its end. *)
Fixpoint for_each {A R} (xs : list A) (body : A → S (option R)) : S (option R) :=
  match xs with
  | [] => ret None
  | x :: xs' => r ← body x;
                match r with
                | Some v => ret (Some v)
                | None => for_each xs' body
                end
  end.

Definition print (s : string) : S unit := modify (put (say s)).
Definition print_end (s e : string) : S unit := modify (put (Line s e)).

(** [Path(p).exists()] *)
Definition exists_ (p : string) : S bool :=
  m ← get; ret (bool_decide (is_Some (fs m !! p))).

(** [Path(p).mkdir(exist_ok=True)] for a directory of the working
    directory. *)
Definition mkdir (p : string) : S unit :=
  m ← get;
  match fs m !! p with
  | Some Dir => ret tt
  | Some (File _ _) => raise (FileExistsError p)
  | None => modify (set_fs (<[ p := Dir ]> (fs m)))
  end.

(** [open(p, "w")] and a write of [c]: a new file is not executable, an
    old one keeps its mode. *)
Definition write_file (p : string) (c : content) : S unit :=
  m ← get;
  match fs m !! p with
  | Some Dir => raise (IsADirectoryError p)
  | Some (File _ x) => modify (set_fs (<[ p := File c x ]> (fs m)))
  | None => modify (set_fs (<[ p := File c false ]> (fs m)))
  end.


(** [Path(p).unlink()] *)
Definition unlink (p : string) : S unit :=
  m ← get;
  match fs m !! p with
  | Some (File _ _) => modify (set_fs (delete p (fs m)))
  | Some Dir => raise (IsADirectoryError p)
  | None => raise (FileNotFoundError p)
  end.

(** [input(prompt)]: the prompt goes to the output, the next line of the
    keyboard is the answer; at the end of input it raises [EOFError]. *)
Definition input (prompt : string) : S string :=
  print_end prompt "";;
  m ← get;
  match stdin m with
  | [] => raise EOFError
  | l :: rest => modify (set_stdin rest);; ret l
  end.

(** *** Comparing [sys.version_info] *)

(** What the scripts compare [sys.version_info] with: a tuple of
    integers such as [(3, 8)], or a float such as [(3.7)], which is no
    tuple. *)
Inductive operand : Type :=
| OTuple (items : list Z)
| OFloat (x : spec_float).

Definition item_eq (x : item) (y : Z) : bool :=
  match x with
  | IInt n => n =? y
  | IStr _ => false
  end.

Definition item_lt (x : item) (y : Z) : option bool :=
  match x with
  | IInt n => Some (n <? y)
  | IStr _ => None
  end.

(** Tuples compare by the first place where the items differ; when one
    is an initial part of the other, the shorter is the smaller. *)
Fixpoint lex_lt (xs : list item) (ys : list Z) : option bool :=
  match xs, ys with
  | _, [] => Some false
  | [], _ :: _ => Some true
  | x :: xs', y :: ys' => if item_eq x y then lex_lt xs' ys' else item_lt x y
  end.

(** [v < o] for the tuple [v]; against a float neither side knows how to
    compare and [TypeError] is raised. *)
Definition version_lt (v : list item) (o : operand) : S bool :=
  match o with
  | OTuple ys => match lex_lt v ys with
                 | Some b => ret b
                 | None => raise TypeError
                 end
  | OFloat _ => raise TypeError
  end.

(** The literal [3.7]. *)
Definition literal_3_7 : spec_float :=
  Eval vm_compute in
    SFdiv PyFloat.prec PyFloat.emax (PyFloat.py_float 37) (PyFloat.py_float 10).

(** [v.major] and [v.minor], printed. *)
Definition show_item (x : option item) : string :=
  match x with
  | Some (IInt n) => pretty n
  | Some (IStr s) => s
  | None => ""
  end.

(** Lower case of an ASCII string. *)
Definition lower_ascii (c : ascii) : ascii :=
  let n := nat_of_ascii c in
  if (65 <=? n)%nat && (n <=? 90)%nat then ascii_of_nat (n + 32) else c.

Fixpoint lower (s : string) : string :=
  match s with
  | EmptyString => EmptyString
  | String c s' => String (lower_ascii c) (lower s')
  end.

(** *** String literals *)

Definition backslash : ascii := ascii_of_nat 92.

(** What a backslash followed by [c] stands for in a plain string
    literal, for the escapes of one character: the line end after a
    backslash is dropped, [n] is a line feed, [r] a carriage return.
    [None]: no such escape, and both characters stay.  The escapes by
    number or name ([\x..], [\u....], [\N{...}], octal digits) are not
    modelled; the templates of the set-up scripts have none. *)
Definition escape (c : ascii) : option string :=
  match nat_of_ascii c with
  | 10%nat => Some ""
  | 92%nat | 39%nat | 34%nat => Some (String c "")
  | 97%nat => Some (String (ascii_of_nat 7) "")           (* [a]: bell *)
  | 98%nat => Some (String (ascii_of_nat 8) "")           (* [b]: backspace *)
  | 102%nat => Some (String (ascii_of_nat 12) "")         (* [f]: form feed *)
  | 110%nat => Some LF                                   (* [n] *)
  | 114%nat => Some CR                                   (* [r] *)
  | 116%nat => Some (String (ascii_of_nat 9) "")          (* [t]: tab *)
  | 118%nat => Some (String (ascii_of_nat 11) "")         (* [v]: vertical tab *)
  | _ => None
  end.

(** The value of a plain literal whose text between the quotes is [s]. *)
Fixpoint unescape (s : string) : string :=
  match s with
  | EmptyString => EmptyString
  | String c tl =>
      if Ascii.eqb c backslash then
        match tl with
        | String e rest =>
            match escape e with
            | Some r => r +:+ unescape rest
            | None => String c (String e (unescape rest))
            end
        | EmptyString => String c EmptyString
        end
      else String c (unescape tl)
  end.

(** *** [setup_vosk.py] *)

Section VoskSetup.
Variable h : host.

(** [str(e)] *)
Definition str_error (e : error) : string :=
  match e with
  | Failure msg => msg
  | _ => describe h e
  end.

(** The percentage [progress_hook] prints. *)
Definition percent (block_num block_size total_size : Z) : Z :=
  Z.min 100 ((block_num * block_size * 100) / total_size).

Definition progress_hook (filename : string) (block_num block_size total_size : Z)
  : S unit :=
  let downloaded := block_num * block_size in
  if 0 <? total_size
  then print_end (CR ++ "Downloading " ++ filename ++ ": "
                     ++ pretty (Z.min 100 ((downloaded * 100) / total_size)) ++ "%") ""
  else ret tt.

Fixpoint report (hook : Z → Z → Z → S unit) (size : Z) (blocknums : list nat) : S unit :=
  match blocknums with
  | [] => ret tt
  | k :: rest => hook (Z.of_nat k) 8192 size;; report hook size rest
  end.

(** [urllib.request.urlretrieve(url, filename, reporthook)]: the file is
    opened for writing once the connection stands, the hook is called
    before the first block and after each block read. *)
Definition urlretrieve (url filename : string) (reporthook : option (Z → Z → Z → S unit))
  : S unit :=
  modify (log_net url);;
  match urlopen h url with
  | Refused e => raise e
  | Transfer size blocks broken =>
      write_file filename (Partial url);;
      match reporthook with
      | Some hook => report hook size (seq 0 (Datatypes.S blocks))
      | None => ret tt
      end;;
      match broken with
      | Some e => raise e
      | None => write_file filename (Fetched url)
      end
  end.

Definition download_with_progress (url filename : string) : S bool :=
  try_except
    (urlretrieve url filename (Some (progress_hook filename));;
     print (LF ++ "✓ Downloaded " ++ filename);;
     ret true)
    (λ e, print (LF ++ "✗ Failed to download " ++ filename ++ ": " ++ str_error e);;
          ret false).

(** [with zipfile.ZipFile(zip_path, 'r') as z: z.extractall(extract_to)]:
    the members are written one after the other, so an extraction that
    raises leaves on disk what it wrote before; a file that is no archive
    is refused before anything is written. *)
Definition extractall (zip_path extract_to : string) : S unit :=
  m ← get;
  match fs m !! zip_path with
  | Some (File c _) =>
      let '(members, failure) := unzip h c extract_to in
      modify (set_fs (list_to_map members ∪ fs m));;
      match failure with
      | Some e => raise e
      | None => ret tt
      end
  | Some Dir => raise (IsADirectoryError zip_path)
  | None => raise (FileNotFoundError zip_path)
  end.

Definition extract_model (zip_path extract_to : string) : S bool :=
  try_except
    (extractall zip_path extract_to;;
     print ("✓ Extracted " ++ zip_path);;
     ret true)
    (λ e, print ("✗ Failed to extract " ++ zip_path ++ ": " ++ str_error e);;
          ret false).

(** An entry of the [models] dictionary. *)
Record model_info : Type := ModelInfo {
  model_name : string;
  url : string;
  size : string;
  description : string;
  recommended : bool
}.

Definition models : list model_info :=
  [ ModelInfo "vosk-model-en-us-0.22"
      "https://alphacephei.com/vosk/models/vosk-model-en-us-0.22.zip"
      "1.8GB" "Large English model with high accuracy" true;
    ModelInfo "vosk-model-small-en-us-0.15"
      "https://alphacephei.com/vosk/models/vosk-model-small-en-us-0.15.zip"
      "40MB" "Small English model for quick testing" false;
    ModelInfo "vosk-model-en-us-0.21"
      "https://alphacephei.com/vosk/models/vosk-model-en-us-0.21.zip"
      "1.8GB" "Previous version English model" false ].

(** The listing printed for the model numbered [i]. *)
Definition list_model (i : nat) (info : model_info) : S unit :=
  let status := if recommended info then "[RECOMMENDED]" else "" in
  print (pretty i ++ ". " ++ model_name info ++ " " ++ status);;
  print ("   Size: " ++ size info);;
  print ("   Description: " ++ description info);;
  print "".

Fixpoint list_models (i : nat) (l : list model_info) : S unit :=
  match l with
  | [] => ret tt
  | info :: rest => list_model i info;; list_models (Datatypes.S i) rest
  end.

Definition invalid_choice : string := "Invalid choice. Please enter 1, 2, 3, or 'all'.".

(** The [while True] that asks for a model; one turn for each line of
    the keyboard, so [fuel] beyond the number of lines is never used. *)
Fixpoint choose (fuel : nat) : S (list model_info) :=
  match fuel with
  | O => raise EOFError
  | Datatypes.S fuel' =>
      raw ← input "Select model to download (1-3, or 'all' for all models): ";
      let choice := strip_lower h raw in
      if String.eqb choice "all" then ret models
      else if String.eqb choice "1" then ret (take 1 models)
      else if String.eqb choice "2" then ret (take 1 (drop 1 models))
      else if String.eqb choice "3" then ret (take 1 (drop 2 models))
      else print invalid_choice;; choose fuel'
  end.

(** The body of [for model_name in selected_models]. *)
Definition setup_model (models_dir : string) (info : model_info) : S (option bool) :=
  let model_dir := join h models_dir (model_name info) in
  present ← exists_ model_dir;
  if (present : bool)
  then print ("✓ " ++ model_name info ++ " already exists");; ret None
  else
    print (LF ++ "Downloading " ++ model_name info ++ " (" ++ size info ++ ")...");;
    let zip_path := join h models_dir (model_name info ++ ".zip") in
    downloaded ← download_with_progress (url info) zip_path;
    if (downloaded : bool)
    then
      extracted ← extract_model zip_path models_dir;
      if (extracted : bool)
      then unlink zip_path;;
           print ("✓ " ++ model_name info ++ " setup completed");; ret None
      else print ("✗ Failed to extract " ++ model_name info);; ret None
    else print ("✗ Failed to download " ++ model_name info);; ret None.

Definition setup_vosk_models : S bool :=
  let models_dir := "vosk_models" in
  mkdir models_dir;;
  print "Available Vosk Models:";;
  print (times "=" 40);;
  list_models 1 models;;
  m ← get;
  selected_models ← choose (Datatypes.S (length (stdin m)));
  for_each selected_models (setup_model models_dir);;
  ret true.

Definition vosk_config : json :=
  JObj (<[ "default_model" := JStr "vosk-model-en-us-0.22" ]>
       (<[ "models_directory" := JStr "vosk_models" ]>
       (<[ "sample_rate" := JInt 16000 ]>
       (<[ "channels" := JInt 1 ]>
       (<[ "chunk_size" := JInt 4096 ]>
       (<[ "enable_partial_results" := JBool true ]>
       (<[ "enable_word_times" := JBool false ]>
       (<[ "log_level" := JStr "INFO" ]>
       {[ "alternative_models" :=
            JArr [JStr "vosk-model-small-en-us-0.15"; JStr "vosk-model-en-us-0.21"] ]})))))))).

Definition create_vosk_config : S bool :=
  let config_path := "vosk_config.json" in
  write_file config_path (JsonText vosk_config);;
  print ("✓ Created " ++ config_path);;
  ret true.

(** The lines between the quotes of [test_script = '''...'''], as
    they stand in [setup_vosk.py]. *)
Definition test_script_template : list string :=
  [ "";
    "#!/usr/bin/env python3";
    DQ3;
    "Vosk Speech Recognition Test Script";
    DQ3;
    "";
    "import json";
    "import pyaudio";
    "import vosk";
    "import sys";
    "from pathlib import Path";
    "";
    "def test_vosk_model(model_path):";
    "    " +:+ DQ3 +:+ "Test Vosk model with microphone input." +:+ DQ3;
    "    if not Path(model_path).exists():";
    "        print(f" +:+ DQ +:+ "Model not found: {model_path}" +:+ DQ +:+ ")";
    "        return False";
    "    ";
    "    try:";
    "        # Initialize Vosk";
    "        model = vosk.Model(model_path)";
    "        rec = vosk.KaldiRecognizer(model, 16000)";
    "        ";
    "        # Initialize PyAudio";
    "        p = pyaudio.PyAudio()";
    "        stream = p.open(";
    "            format=pyaudio.paInt16,";
    "            channels=1,";
    "            rate=16000,";
    "            input=True,";
    "            frames_per_buffer=4096";
    "        )";
    "        ";
    "        print(" +:+ DQ +:+ "Vosk model loaded successfully!" +:+ DQ +:+ ")";
    "        print(" +:+ DQ +:+ "Speak into your microphone (press Ctrl+C to stop)..."
      +:+ DQ +:+ ")";
    "        ";
    "        try:";
    "            while True:";
    "                data = stream.read(4096, exception_on_overflow=False)";
    "                if rec.AcceptWaveform(data):";
    "                    result = json.loads(rec.Result())";
    "                    if result.get('text'):";
    "                        print(f" +:+ DQ +:+ "Recognized: {result['text']}" +:+ DQ +:+ ")";
    "                else:";
    "                    partial = json.loads(rec.PartialResult())";
    "                    if partial.get('partial'):";
    "                        print(f" +:+ DQ +:+ "Partial: {partial['partial']}" +:+ DQ
      +:+ ", end='\r')";
    "        ";
    "        except KeyboardInterrupt:";
    "            print(" +:+ DQ +:+ "\nStopping..." +:+ DQ +:+ ")";
    "        ";
    "        finally:";
    "            stream.stop_stream()";
    "            stream.close()";
    "            p.terminate()";
    "        ";
    "        return True";
    "    ";
    "    except Exception as e:";
    "        print(f" +:+ DQ +:+ "Error testing Vosk model: {e}" +:+ DQ +:+ ")";
    "        return False";
    "";
    "def main():";
    "    " +:+ DQ3 +:+ "Main test function." +:+ DQ3;
    "    print(" +:+ DQ +:+ "Vosk Speech Recognition Test" +:+ DQ +:+ ")";
    "    print(" +:+ DQ +:+ "=" +:+ DQ +:+ " * 30)";
    "    ";
    "    # Load config";
    "    config_path = Path(" +:+ DQ +:+ "vosk_config.json" +:+ DQ +:+ ")";
    "    if not config_path.exists():";
    "        print(" +:+ DQ +:+ "Config file not found. Please run setup_vosk.py first."
      +:+ DQ +:+ ")";
    "        sys.exit(1)";
    "    ";
    "    with open(config_path, 'r') as f:";
    "        config = json.load(f)";
    "    ";
    "    # Test default model";
    "    model_name = config['default_model']";
    "    model_path = Path(config['models_directory']) / model_name";
    "    ";
    "    print(f" +:+ DQ +:+ "Testing model: {model_name}" +:+ DQ +:+ ")";
    "    if test_vosk_model(str(model_path)):";
    "        print(" +:+ DQ +:+ "✓ Vosk test completed successfully!" +:+ DQ +:+ ")";
    "    else:";
    "        print(" +:+ DQ +:+ "✗ Vosk test failed." +:+ DQ +:+ ")";
    "        sys.exit(1)";
    "";
    "if __name__ == " +:+ DQ +:+ "__main__" +:+ DQ +:+ ":";
    "    main()";
    "" ].

(** The literal is a plain one, not a raw one: what is written to the
    file is the value Python gives it, with its escapes replaced. *)
Definition test_script : string := unescape (String.concat LF test_script_template).

Definition create_test_script : S unit :=
  write_file "test_vosk.py" (Source test_script);;
  print "✓ Created test_vosk.py".

(** [subprocess.check_call([sys.executable, "-m", "pip", "install", req])]:
    [Some msg] when pip exits with another status than 0, [msg] being the
    text of the [CalledProcessError]. *)
Definition pip (req : string) : S (option string) :=
  modify (log_pip req);;
  ret (pip_install h req).

Definition vosk_packages : list string :=
  [ "vosk>=0.3.45"; "pyaudio>=0.2.11"; "numpy>=1.21.0"; "scipy>=1.7.0" ].

Definition install_package (package : string) : S (option bool) :=
  failed ← pip package;
  match failed with
  | None => print ("✓ Installed " ++ package);; ret None
  | Some msg =>
      print ("✗ Failed to install " ++ package ++ ": " ++ msg);;
      (if substring_of "pyaudio" (lower package)
       then
         print "Note: PyAudio installation may require additional system dependencies.";;
         print "On Windows: Install Microsoft Visual C++ Build Tools";;
         print "On Ubuntu/Debian: sudo apt-get install portaudio19-dev python3-pyaudio";;
         print "On macOS: brew install portaudio"
       else ret tt);;
      ret (Some false)
  end.

Definition install_python_dependencies : S bool :=
  print "Installing Python dependencies for Vosk...";;
  r ← for_each vosk_packages install_package;
  ret (default true r).

Definition check_system_requirements : S bool :=
  print "Checking system requirements...";;
  old ← version_lt (version_info h) (OFloat literal_3_7);
  if (old : bool)
  then print "✗ Python 3.7 or higher is required";; ret false
  else
    print ("✓ Python " ++ show_item (version_info h !! 0%nat) ++ "."
             ++ show_item (version_info h !! 1%nat) ++ " detected");;
    let free_space :=
      SFdiv PyFloat.prec PyFloat.emax (PyFloat.py_float (disk_free h))
            (PyFloat.py_float (1024 ^ 3)) in
    (if SFltb free_space (PyFloat.py_float 5)
     then print ("⚠ Warning: Low disk space (" ++ format_1f h free_space
                   ++ "GB available). Models require 2-4GB.")
     else print ("✓ Sufficient disk space (" ++ format_1f h free_space
                   ++ "GB available)"));;
    ret true.

Definition vosk_main : S unit :=
  print "Vosk Speech Recognition Setup";;
  print (times "=" 35);;
  ok ← check_system_requirements;
  (if (ok : bool) then ret tt
   else print "System requirements not met.";; exit 1);;
  ok ← install_python_dependencies;
  (if (ok : bool) then ret tt
   else print "Failed to install Python dependencies.";;
        print "Please install them manually and run this script again.";;
        exit 1);;
  ok ← setup_vosk_models;
  (if (ok : bool) then ret tt
   else print "Failed to setup Vosk models.";; exit 1);;
  create_vosk_config;;
  create_test_script;;
  print (LF ++ times "=" 50);;
  print "✓ Vosk Speech Recognition setup completed!";;
  print (LF ++ "Next steps:");;
  print "1. Test the installation: python test_vosk.py";;
  print "2. Configure your application to use the models in 'vosk_models' directory";;
  print "3. Adjust settings in 'vosk_config.json' if needed";;
  print (LF ++ "Model files are located in the 'vosk_models' directory");;
  print "Configuration file: vosk_config.json".

End VoskSetup.

(** *** [setup_kokoro.py] *)

Section KokoroSetup.
Variable h : host.

Definition check_python_version : S unit :=
  old ← version_lt (version_info h) (OTuple [3; 8]);
  if (old : bool)
  then print "Error: Python 3.8 or higher is required.";; exit 1
  else print ("✓ Python " ++ show_item (version_info h !! 0%nat) ++ "."
                ++ show_item (version_info h !! 1%nat) ++ " detected").

Definition requirements : list string :=
  [ "torch>=1.9.0"; "torchaudio>=0.9.0"; "numpy>=1.21.0"; "scipy>=1.7.0";
    "flask>=2.0.0"; "flask-cors>=3.0.0"; "librosa>=0.8.0"; "soundfile>=0.10.0";
    "requests>=2.25.0" ].

Definition install_requirement (req : string) : S (option bool) :=
  failed ← pip h req;
  match failed with
  | None => print ("✓ Installed " ++ req);; ret None
  | Some _ => print ("✗ Failed to install " ++ req);; ret (Some false)
  end.

Definition install_requirements : S bool :=
  print "Installing Python requirements...";;
  r ← for_each requirements install_requirement;
  ret (default true r).

Definition model_files : list (string * string) :=
  [ ("kokoro_model.pth", "https://example.com/kokoro_model.pth");
    ("config.json", "https://example.com/config.json");
    ("vocab.txt", "https://example.com/vocab.txt") ].

Definition download_model_file (model_dir : string) (entry : string * string)
  : S (option bool) :=
  let '(filename, url) := entry in
  let filepath := join h model_dir filename in
  present ← exists_ filepath;
  if (present : bool)
  then print ("✓ " ++ filename ++ " already exists");; ret None
  else
    try_except
      (print ("Downloading " ++ filename ++ "...");;
       urlretrieve h url filepath None;;
       print ("✓ Downloaded " ++ filename);;
       ret None)
      (λ e,
         print ("✗ Failed to download " ++ filename ++ ": " ++ str_error h e);;
         print ("Please download the model files manually and place them in "
                  ++ "the kokoro_models directory.");;
         ret (Some false)).

Definition download_kokoro_model : S bool :=
  let model_dir := "kokoro_models" in
  mkdir model_dir;;
  print "Downloading Kokoro model files...";;
  r ← for_each model_files (download_model_file model_dir);
  ret (default true r).




End KokoroSetup.

(** *** The interpreter on a script

  [python script.py] compiles the whole text before it runs any of it,
  and the first step of compiling splits the text into tokens.  Of the
  tokens only comments and string literals are followed here: a literal in
  single or double quotes has to end on its line, one in three quotes may
  run over lines, and inside either a backslash takes the next character
  with it.  (Up to Python 3.11 an f-string is a literal like any other;
  later versions read its fields as tokens of their own, which is the same
  for fields that hold no line end and no quote of the enclosing kind.) *)








(** *** Notions used in the statements *)

(** The requirements pip is run for: all up to the first that fails,
    that one included. *)
Fixpoint attempted (outcome : string → option string) (reqs : list string) : list string :=
  match reqs with
  | [] => []
  | r :: rest => r :: (if outcome r is None then attempted outcome rest else [])
  end.

Definition all_install (outcome : string → option string) (reqs : list string) : bool :=
  forallb (λ r, bool_decide (outcome r = None)) reqs.

(** The answers the model menu takes, and what each selects. *)
Definition is_choice (choice : string) : bool :=
  String.eqb choice "all" || String.eqb choice "1" || String.eqb choice "2"
  || String.eqb choice "3".

Definition selection (choice : string) : list model_info :=
  if String.eqb choice "all" then models
  else if String.eqb choice "1" then take 1 models
  else if String.eqb choice "2" then take 1 (drop 1 models)
  else take 1 (drop 2 models).

Definition prompt : line :=
  Line "Select model to download (1-3, or 'all' for all models): " "".

(** What the menu prints for one refused answer: the prompt that was
    answered and the complaint. *)
Definition refused_answers (n : nat) : list line :=
  concat (repeat [prompt; say invalid_choice] n).


(** A host on which nothing works: pip fails, every connection is
    refused, no file is an archive. *)
Definition offline (version : list item) (os : string) : host :=
  Host version os (λ _, Some "exit status 1") (λ _, Refused (Failure "unreachable"))
       (λ _ _, ([], Some (Failure "File is not a zip file")))
       (λ a b, a +:+ "/" +:+ b) (λ _, "error") (λ s, s) 0 (λ _, "0.0").

(** A host on which everything works; each archive unpacks to one
    directory. *)
Definition online (version : list item) (os : string) : host :=
  Host version os (λ _, None) (λ _, Transfer 20000 3 None)
       (λ c d, match c with
               | Fetched u => ([(d +:+ "/" +:+ u, Dir)], None)
               | _ => ([], Some (Failure "File is not a zip file"))
               end)
       (λ a b, a +:+ "/" +:+ b) (λ _, "error") (λ s, s) (10 * 1024 ^ 3) (λ _, "10.0").


Definition python_3_11 : list item := [IInt 3; IInt 11; IInt 4; IStr "final"; IInt 0].

End Setup.

(** * Properties of the synthesis server *)

Module KokoroProps.
Import Json Kokoro.

(** Unfolding the monad of the server. *)
Ltac run :=
  repeat progress
    (unfold mbind, mret, M_bind, M_ret, try_except, bind, emit, modify, get, ret, raise,
       lift, internal_error;
     cbn beta iota zeta delta
       [model config np_random model_file config_file tmp_dir trace
        log set_model set_config set_np_random set_tmp_dir fst snd]).

(** Two spellings of the same world. *)
Ltac same_world :=
  unfold log, set_model, set_config, set_np_random, set_tmp_dir;
  cbn [model config np_random model_file config_file tmp_dir trace];
  rewrite <-?app_assoc; reflexivity.

(** *** Length of the placeholder audio *)

Example tenth_is_one_tenth :
  SFdiv PyFloat.prec PyFloat.emax (PyFloat.py_float 1) (PyFloat.py_float 10) = PyFloat.tenth.
Proof. reflexivity. Qed.

Example audio_length_hello : audio_length 5 = Some 11025.
Proof. reflexivity. Qed.

(** For every text the handler lets through, the two roundings of the
    float product cancel: the buffer has exactly 2205 samples per
    character. *)
Lemma audio_length_upto_1000 n :
  0 ≤ n ≤ 1000 → audio_length n = Some (2205 * n).
Proof.
  intros Hn.
  assert (Htable : forallb (λ i, bool_decide
              (audio_length (Z.of_nat i) = Some (2205 * Z.of_nat i))) (seq 0 1001) = true)
    by (vm_compute; reflexivity).
  rewrite forallb_forall in Htable.
  specialize (Htable (Z.to_nat n)).
  rewrite Z2Nat.id in Htable by lia.
  apply (bool_decide_eq_true_1 _), Htable, in_seq. lia.
Qed.

Lemma length_drawn k w : 0 ≤ k → Z.of_nat (length (drawn k w)) = k.
Proof. intros Hk. unfold drawn. rewrite length_map, length_seq. lia. Qed.

(** *** [synthesize_speech] on a string *)

Lemma synthesize_speech_not_loaded text voice_id speed w :
  model w = None →
  synthesize_speech text voice_id speed w =
    (Raise (RuntimeError "Model not loaded"), log ReadModel w).
Proof. intros Hm. unfold synthesize_speech. run. by rewrite Hm. Qed.

Lemma synthesize_speech_sized text n voice_id speed w o k :
  py_len text = ret n →
  model w = Some o →
  audio_length n = Some k →
  0 ≤ k →
  synthesize_speech text voice_id speed w =
    (Ret (drawn k w, sample_rate), after_synthesis k w).
Proof.
  intros Hlen Hm Hk Hpos. unfold synthesize_speech. rewrite Hlen.
  unfold py_int, randn. run.
  rewrite Hm. unfold audio_length in Hk. rewrite Hk. run.
  destruct (Z.ltb_spec k 0) as [?|_]; [lia|]. run.
  unfold after_synthesis, drawn. same_world.
Qed.

Lemma py_len_str s : py_len (JStr s) = ret (Z.of_nat (String.length s)).
Proof. reflexivity. Qed.

Lemma py_len_nonneg text n : py_len text = ret n → 0 ≤ n.
Proof.
  intros Hlen. apply (f_equal (λ m, (m installed).1)) in Hlen.
  destruct text; unfold py_len, ret, raise in Hlen; cbn in Hlen;
    try discriminate Hlen; injection Hlen as <-; lia.
Qed.

(** *** The handler, step by step *)

Lemma truthy_object m k (v : json) : m !! k = Some v → truthy (JObj m) = true.
Proof.
  intros Hk. cbn. apply negb_true_iff, bool_decide_eq_false_2.
  intros ->. by rewrite lookup_empty in Hk.
Qed.

Lemma synthesize_no_text io req m w :
  get_json req = Ret (JObj m) →
  m !! "text" = None →
  synthesize io req w = (Ret text_required, w).
Proof.
  intros Hreq Hk. unfold synthesize. rewrite Hreq. run.
  destruct (negb (truthy (JObj m))); [done|].
  unfold py_in. run. by rewrite Hk.
Qed.

Lemma synthesize_object io req m v w :
  get_json req = Ret (JObj m) →
  m !! "text" = Some v →
  synthesize io req w =
    try_except
      (n ← py_len v;
       if 1000 <? n then ret text_too_long
       else deliver io v (default (JStr "default") (m !! "voice_id"))
                         (default (JFloat PyFloat.one) (m !! "speed")))
      internal_error w.
Proof.
  intros Hreq Hk. unfold synthesize. rewrite Hreq. run.
  rewrite (truthy_object m "text" v Hk). unfold py_in, py_getitem, py_get. run.
  rewrite Hk. cbn [bool_decide decide_rel negb]. run.
  reflexivity.
Qed.

Lemma synthesize_sized io req m text n w o k :
  get_json req = Ret (JObj m) →
  m !! "text" = Some text →
  py_len text = ret n →
  n ≤ 1000 →
  model w = Some o →
  audio_length n = Some k →
  0 ≤ k →
  synthesize io req w = (Ret (served io k w), delivered io k w).
Proof.
  intros Hreq Hk Hlen Hn Hm Hal Hpos.
  rewrite (synthesize_object io req m text w Hreq Hk), Hlen. run.
  destruct (Z.ltb_spec 1000 n) as [?|_]; [lia|].
  unfold deliver. run.
  rewrite (synthesize_speech_sized text n _ _ w o k Hlen Hm Hal Hpos).
  unfold named_temporary_file, torchaudio_save, send_file, served, delivered,
    after_synthesis.
  run.
  destruct (torchaudio_save_ok io), (send_file_ok io); run;
    rewrite ?lookup_insert_eq; same_world.
Qed.

Lemma py_len_cases text : py_len text = raise TypeError ∨ ∃ n, py_len text = ret n.
Proof. destruct text; cbn; eauto. Qed.

Lemma synthesize_not_loaded io req m text n w :
  get_json req = Ret (JObj m) →
  m !! "text" = Some text →
  py_len text = ret n →
  n ≤ 1000 →
  model w = None →
  synthesize io req w =
    (Ret (Error 500 (RuntimeError "Model not loaded")), log ReadModel w).
Proof.
  intros Hreq Hk Hlen Hn Hm.
  rewrite (synthesize_object io req m text w Hreq Hk), Hlen. run.
  destruct (Z.ltb_spec 1000 n) as [?|_]; [lia|].
  unfold deliver. run.
  by rewrite (synthesize_speech_not_loaded text _ _ w Hm).
Qed.

Lemma synthesize_handled io req w : handled io req w (synthesize io req w).
Proof.
  destruct (get_json req) as [data|e] eqn:Hreq.
  2: { unfold synthesize. rewrite Hreq. run. apply Rejected. eauto. }
  destruct data as [|b|k|x|s|l|m].
  1-6: unfold synthesize; rewrite Hreq; run; unfold py_in, py_getitem; cbn [truthy negb].
  - apply NoText; congruence.
  - destruct b; run; [apply Rejected; eauto|apply NoText; congruence].
  - destruct (k =? 0); run; [apply NoText; congruence|apply Rejected; eauto].
  - destruct (PyFloat.truthy x); run; [apply Rejected; eauto|apply NoText; congruence].
  - destruct (String.eqb s ""); run; [apply NoText; congruence|].
    destruct (substring_of "text" s); run; [apply Rejected; eauto|apply NoText; congruence].
  - destruct l as [|v l]; run; [apply NoText; congruence|].
    destruct (existsb (is_str "text") (v :: l)); run; [apply Rejected; eauto|apply NoText; congruence].
  - destruct (m !! "text") as [text|] eqn:Hk.
    2: { rewrite (synthesize_no_text io req m w Hreq Hk). apply NoText. congruence. }
    destruct (py_len_cases text) as [Hlen|[n Hlen]].
    { rewrite (synthesize_object io req m text w Hreq Hk), Hlen. run.
      apply Rejected. eauto. }
    pose proof (py_len_nonneg text n Hlen) as Hpos.
    destruct (Z.ltb_spec 1000 n) as [Hn|Hn].
    { rewrite (synthesize_object io req m text w Hreq Hk), Hlen. run.
      apply Z.ltb_lt in Hn. rewrite Hn. apply Rejected. eauto. }
    destruct (model w) as [o|] eqn:Hm.
    + rewrite (synthesize_sized io req m text n w o (2205 * n) Hreq Hk Hlen Hn Hm)
        by (apply audio_length_upto_1000 || lia; lia).
      by apply (Served io req w m text n o).
    + rewrite (synthesize_not_loaded io req m text n w Hreq Hk Hlen Hn Hm).
      by apply NotLoaded.
Qed.

(** *** Text length *)

(** C2: a request whose text has more than 1000 characters is answered
    with status 400 and the too-long error, and the world is left as it
    was: the trace has no new entry, so the global [model] was not even
    read, no sample was drawn and no file was made.  This holds whether or
    not a model is loaded. *)
Theorem long_text_rejected_before_model io req m s w :
  get_json req = Ret (JObj m) →
  m !! "text" = Some (JStr s) →
  1000 < Z.of_nat (String.length s) →
  synthesize io req w = (Ret text_too_long, w) ∧
  status_of text_too_long = 400 ∧
  text_too_long = Json 400 (JObj {[ "error" := JStr "Text too long (max 1000 characters)" ]}).
Proof.
  intros Hreq Hk Hlen. split; [|done].
  rewrite (synthesize_object io req m (JStr s) w Hreq Hk). unfold py_len. run.
  by destruct (Z.ltb_spec 1000 (Z.of_nat (String.length s))) as [_|?]; [|lia].
Qed.

Lemma long_text_rejected_before_model_witness :
  let long := string_of_list_ascii (repeat "a"%char 1001) in
  synthesize all_fine (post {[ "text" := JStr long ]}) installed
    = (Ret text_too_long, installed) ∧
  status_of text_too_long = 400 ∧
  text_too_long = Json 400 (JObj {[ "error" := JStr "Text too long (max 1000 characters)" ]}).
Proof.
  apply (long_text_rejected_before_model all_fine _
           {[ "text" := JStr (string_of_list_ascii (repeat "a"%char 1001)) ]}
           (string_of_list_ascii (repeat "a"%char 1001))).
  - reflexivity.
  - vm_compute. reflexivity.
  - vm_compute. reflexivity.
Defined.

(** *** Determinism *)

Lemma drawn_ext k w1 w2 :
  (∀ i, np_random w1 i = np_random w2 i) → drawn k w1 = drawn k w2.
Proof. intros Hrng. unfold drawn. apply map_ext. intros i. apply Hrng. Qed.

(** C1, as the code has it: with a model loaded, two calls of
    [synthesize_speech] on the same text of at most 1000 characters (or
    items) both return, with the same sample rate, 22050, and the same
    number of samples, 2205 for each character.  The samples are the next
    draws of numpy's global generator: they are equal when the generator
    is in the same state at both calls, and the voice and the speed play
    no part. *)
Theorem synthesis_deterministic_up_to_draws text n voice1 speed1 voice2 speed2 w1 w2 o1 o2 :
  py_len text = ret n →
  n ≤ 1000 →
  model w1 = Some o1 →
  model w2 = Some o2 →
  ∃ audio1 audio2,
    (synthesize_speech text voice1 speed1 w1).1 = Ret (audio1, 22050) ∧
    (synthesize_speech text voice2 speed2 w2).1 = Ret (audio2, 22050) ∧
    Z.of_nat (length audio1) = 2205 * n ∧
    Z.of_nat (length audio2) = 2205 * n ∧
    ((∀ i, np_random w1 i = np_random w2 i) → audio1 = audio2).
Proof.
  intros Hlen Hn Hm1 Hm2.
  pose proof (py_len_nonneg text n Hlen) as Hpos.
  pose proof (audio_length_upto_1000 n (conj Hpos Hn)) as Hal.
  exists (drawn (2205 * n) w1), (drawn (2205 * n) w2).
  rewrite (synthesize_speech_sized text n _ _ w1 o1 _ Hlen Hm1 Hal) by lia.
  rewrite (synthesize_speech_sized text n _ _ w2 o2 _ Hlen Hm2 Hal) by lia.
  repeat split; try apply length_drawn; try lia.
  apply drawn_ext.
Qed.

Lemma synthesis_deterministic_up_to_draws_witness :
  ∃ audio1 audio2,
    (synthesize_speech (JStr "hello") (JStr "default") (JFloat PyFloat.one) ready).1
      = Ret (audio1, 22050) ∧
    (synthesize_speech (JStr "hello") (JStr "male1") (JInt 2) (log ReadModel ready)).1
      = Ret (audio2, 22050) ∧
    Z.of_nat (length audio1) = 2205 * 5 ∧
    Z.of_nat (length audio2) = 2205 * 5 ∧
    ((∀ i, np_random ready i = np_random (log ReadModel ready) i) → audio1 = audio2).
Proof.
  apply (synthesis_deterministic_up_to_draws (JStr "hello") 5 _ _ _ _ ready
           (log ReadModel ready) kokoro_v1 kokoro_v1).
  - reflexivity.
  - lia.
  - reflexivity.
  - reflexivity.
Defined.

(** C1 fails on the code: with the model loaded, the text ["a"] is
    synthesized twice in a row with the same voice and speed.  Both calls
    return 2205 samples at 22050 Hz, but the second buffer holds the draws
    that follow those of the first. *)
Lemma placeholder_audio_differs_between_calls :
  let call := synthesize_speech (JStr "a") (JStr "default") (JFloat PyFloat.one) in
  (call ready).1 = Ret (drawn 2205 ready, 22050) ∧
  (call (call ready).2).1 = Ret (drawn 2205 (after_synthesis 2205 ready), 22050) ∧
  drawn 2205 ready !! 0%nat = Some (PyFloat.py_float 0) ∧
  drawn 2205 (after_synthesis 2205 ready) !! 0%nat = Some (PyFloat.py_float 2205) ∧
  drawn 2205 ready ≠ drawn 2205 (after_synthesis 2205 ready).
Proof.
  cbn zeta.
  rewrite (synthesize_speech_sized (JStr "a") 1 _ _ ready kokoro_v1 2205)
    by (reflexivity || lia).
  cbn [fst snd].
  rewrite (synthesize_speech_sized (JStr "a") 1 _ _ (after_synthesis 2205 ready) kokoro_v1 2205)
    by (reflexivity || lia).
  repeat split.
  intros Heq. apply (f_equal (λ l, l !! 0%nat)) in Heq. vm_compute in Heq. discriminate Heq.
Qed.

(** C9: with a model loaded, synthesizing ["hello"] with the default
    voice at speed 1.0 twice in a row returns both times, each time 11025
    samples at 22050 Hz, which is [int(22050 * 5 * 0.1)].  Through the
    handler, when [torchaudio.save] and [send_file] go through, both
    requests are answered with a wav file of that length and rate. *)
Theorem hello_twice_same_rate_and_length io w o :
  model w = Some o →
  let call := synthesize_speech (JStr "hello") (JStr "default") (JFloat PyFloat.one) in
  let req := post (<[ "text" := JStr "hello" ]> (<[ "voice_id" := JStr "default" ]>
                   {[ "speed" := JFloat PyFloat.one ]})) in
  PyFloat.py_int (PyFloat.mul (PyFloat.py_float (22050 * 5)) PyFloat.tenth) = Some 11025 ∧
  (∃ audio1 audio2,
     (call w).1 = Ret (audio1, 22050) ∧
     (call (call w).2).1 = Ret (audio2, 22050) ∧
     Z.of_nat (length audio1) = 11025 ∧ Z.of_nat (length audio2) = 11025) ∧
  (torchaudio_save_ok io = true → send_file_ok io = true →
   ∃ f1 f2 audio1 audio2,
     (synthesize io req w).1 = Ret (File f1 (Wav audio1 22050) "audio/wav" "speech.wav") ∧
     (synthesize io req (synthesize io req w).2).1
       = Ret (File f2 (Wav audio2 22050) "audio/wav" "speech.wav") ∧
     Z.of_nat (length audio1) = 11025 ∧ Z.of_nat (length audio2) = 11025).
Proof.
  intros Hm call req. subst call req.
  assert (∀ w', Z.of_nat (length (drawn 11025 w')) = 11025) as Hlen
    by (intros w'; by apply length_drawn).
  split; [reflexivity|]. split.
  - exists (drawn 11025 w), (drawn 11025 (after_synthesis 11025 w)).
    rewrite (synthesize_speech_sized (JStr "hello") 5 _ _ w o 11025)
      by (reflexivity || lia || done).
    cbn [fst snd].
    by rewrite (synthesize_speech_sized (JStr "hello") 5 _ _ (after_synthesis 11025 w) o 11025)
      by (reflexivity || lia || done).
  - intros Hsave Hsend.
    set (m := <[ "text" := JStr "hello" ]> _).
    assert (m !! "text" = Some (JStr "hello")) as Hk by (vm_compute; reflexivity).
    exists (fresh (dom (tmp_dir w))), (fresh (dom (tmp_dir (delivered io 11025 w)))),
      (drawn 11025 w), (drawn 11025 (delivered io 11025 w)).
    rewrite (synthesize_sized io (post m) m (JStr "hello") 5 w o 11025 eq_refl Hk)
      by (reflexivity || lia || done).
    cbn [fst snd].
    rewrite (synthesize_sized io (post m) m (JStr "hello") 5 (delivered io 11025 w) o 11025
               eq_refl Hk)
      by (reflexivity || lia || done).
    cbn [fst snd]. unfold served. by rewrite Hsave, Hsend.
Qed.

Lemma hello_twice_same_rate_and_length_witness :
  let call := synthesize_speech (JStr "hello") (JStr "default") (JFloat PyFloat.one) in
  let req := post (<[ "text" := JStr "hello" ]> (<[ "voice_id" := JStr "default" ]>
                   {[ "speed" := JFloat PyFloat.one ]})) in
  PyFloat.py_int (PyFloat.mul (PyFloat.py_float (22050 * 5)) PyFloat.tenth) = Some 11025 ∧
  (∃ audio1 audio2,
     (call ready).1 = Ret (audio1, 22050) ∧
     (call (call ready).2).1 = Ret (audio2, 22050) ∧
     Z.of_nat (length audio1) = 11025 ∧ Z.of_nat (length audio2) = 11025) ∧
  (torchaudio_save_ok all_fine = true → send_file_ok all_fine = true →
   ∃ f1 f2 audio1 audio2,
     (synthesize all_fine req ready).1
       = Ret (File f1 (Wav audio1 22050) "audio/wav" "speech.wav") ∧
     (synthesize all_fine req (synthesize all_fine req ready).2).1
       = Ret (File f2 (Wav audio2 22050) "audio/wav" "speech.wav") ∧
     Z.of_nat (length audio1) = 11025 ∧ Z.of_nat (length audio2) = 11025).
Proof.
  apply (hello_twice_same_rate_and_length all_fine ready kokoro_v1).
  reflexivity.
Defined.

(** *** Loading the model *)

(** C4, as the code has it: [load_model] keeps no record of earlier
    calls.  Whenever both artifacts are on disk and load, a call reads
    [config.json] and the model file and sets the globals to what it read:
    on a first call, after a call that failed, and also when a model was
    already loaded, which it replaces. *)
Theorem load_model_always_reads_artifacts w cfg o :
  config_file w = Some (Parsed cfg) →
  model_file w = Some (Pickled o) →
  has_eval o = true →
  load_model w = (Ret tt, loaded cfg o w) ∧
  model (loaded cfg o w) = Some o ∧
  config (loaded cfg o w) = Some cfg ∧
  trace (loaded cfg o w) = trace w ++ [JsonLoadConfig; TorchLoad; ModelEval].
Proof.
  intros Hc Hm He. split; [|done].
  unfold load_model, json_load_config, torch_load, model_eval. run.
  rewrite Hc, Hm, !bool_decide_eq_true_2 by eauto. cbn [negb orb]. run.
  rewrite Hc. run. rewrite Hm. run. rewrite He. run.
  unfold loaded. same_world.
Qed.

Lemma load_model_always_reads_artifacts_witness :
  load_model (replace_artifact (Pickled kokoro_v2) ready)
    = (Ret tt, loaded (JObj ∅) kokoro_v2 (replace_artifact (Pickled kokoro_v2) ready)) ∧
  model (loaded (JObj ∅) kokoro_v2 (replace_artifact (Pickled kokoro_v2) ready))
    = Some kokoro_v2 ∧
  config (loaded (JObj ∅) kokoro_v2 (replace_artifact (Pickled kokoro_v2) ready))
    = Some (JObj ∅) ∧
  trace (loaded (JObj ∅) kokoro_v2 (replace_artifact (Pickled kokoro_v2) ready))
    = trace (replace_artifact (Pickled kokoro_v2) ready)
      ++ [JsonLoadConfig; TorchLoad; ModelEval].
Proof.
  apply (load_model_always_reads_artifacts
           (replace_artifact (Pickled kokoro_v2) ready) (JObj ∅) kokoro_v2);
    reflexivity.
Defined.

(** C4 fails on the code: after a first successful [load_model], a
    second call succeeds too but is no no-op.  It opens the config and
    unpickles the model file again, and when the file on disk has changed
    in between, the loaded model is replaced. *)
Lemma second_load_model_is_not_a_no_op :
  let first := load_model installed in
  let second := load_model first.2 in
  let reloaded := load_model (replace_artifact (Pickled kokoro_v2) first.2) in
  first.1 = Ret tt ∧
  model first.2 = Some kokoro_v1 ∧
  trace first.2 = [JsonLoadConfig; TorchLoad; ModelEval] ∧
  second.1 = Ret tt ∧
  trace second.2 = [JsonLoadConfig; TorchLoad; ModelEval; JsonLoadConfig; TorchLoad; ModelEval] ∧
  reloaded.1 = Ret tt ∧
  model reloaded.2 = Some kokoro_v2.
Proof. vm_compute. repeat split; reflexivity. Qed.

(** *** Voices *)

(** C5, as the code has it: the voice plays no part.  [synthesize_speech]
    gives the same result and leaves the same world for any two voice ids,
    and the answer of the handler does not change when the [voice_id]
    entry of the body is set to anything else, in the catalog or not. *)
Theorem voice_id_is_ignored io body text voice1 voice2 speed w :
  synthesize_speech text voice1 speed w = synthesize_speech text voice2 speed w ∧
  synthesize io (post (<[ "voice_id" := voice1 ]> body)) w = synthesize io (post body) w.
Proof.
  split; [reflexivity|].
  destruct (body !! "text") as [v|] eqn:Hk.
  - rewrite (synthesize_object io (post _) (<[ "voice_id" := voice1 ]> body) v w eq_refl)
      by (by rewrite lookup_insert_ne).
    by rewrite (synthesize_object io (post _) body v w eq_refl Hk).
  - rewrite (synthesize_no_text io (post _) (<[ "voice_id" := voice1 ]> body) w eq_refl)
      by (by rewrite lookup_insert_ne).
    by rewrite (synthesize_no_text io (post _) body w eq_refl Hk).
Qed.

(** C5 fails on the code: with the model loaded, a request for the voice
    ["klingon"], which is not in the catalog, is answered with audio, the
    same file a request without any [voice_id] gets. *)
Lemma unknown_voice_is_served :
  let req := post (<[ "text" := JStr "hi" ]> {[ "voice_id" := JStr "klingon" ]}) in
  voice_ids = [JStr "default"; JStr "female1"; JStr "male1"] ∧
  existsb (is_str "klingon") voice_ids = false ∧
  (synthesize all_fine req ready).1
    = Ret (File 0%nat (Wav (drawn 4410 ready) 22050) "audio/wav" "speech.wav") ∧
  synthesize all_fine req ready = synthesize all_fine (post {[ "text" := JStr "hi" ]}) ready.
Proof.
  cbn zeta. split; [by vm_compute|]. split; [by vm_compute|].
  rewrite (synthesize_sized all_fine (post _) _ (JStr "hi") 2 ready kokoro_v1 4410 eq_refl)
    by (reflexivity || lia).
  rewrite (synthesize_sized all_fine (post _) _ (JStr "hi") 2 ready kokoro_v1 4410 eq_refl)
    by (reflexivity || lia).
  split; reflexivity.
Qed.

(** *** Temporary files *)

Lemma delivered_keeps_files io k w f :
  is_Some (tmp_dir w !! f) → is_Some (tmp_dir (delivered io k w) !! f).
Proof.
  intros Hf. unfold delivered. cbn [tmp_dir].
  destruct (torchaudio_save_ok io); rewrite ?lookup_insert_is_Some'; tauto.
Qed.

Lemma fresh_file_unused w : tmp_dir w !! fresh (dom (tmp_dir w)) = None.
Proof. apply not_elem_of_dom, is_fresh. Qed.

(** C6, as the code has it: the temporary file is made with
    [delete=False] and nothing removes it.  No call of the handler takes
    a temporary file off the disk.  When a request is answered with
    audio, the file it is served from did not exist before the request
    and is on disk, holding that audio at 22050 Hz, when the handler has
    returned.  And every request that gets as far as synthesis with a
    model loaded leaves a new file behind, also when [torchaudio.save] or
    [send_file] raise and the answer is an error. *)
Theorem temporary_files_are_kept io req w :
  let r := synthesize io req w in
  (∀ f, is_Some (tmp_dir w !! f) → is_Some (tmp_dir r.2 !! f)) ∧
  (∀ f c mimetype name,
     r.1 = Ret (File f c mimetype name) →
     tmp_dir w !! f = None ∧ tmp_dir r.2 !! f = Some c ∧ ∃ audio, c = Wav audio 22050) ∧
  (∀ m text n o,
     get_json req = Ret (JObj m) →
     m !! "text" = Some text →
     py_len text = ret n →
     n ≤ 1000 →
     model w = Some o →
     tmp_dir w !! fresh (dom (tmp_dir w)) = None ∧
     is_Some (tmp_dir r.2 !! fresh (dom (tmp_dir w)))).
Proof.
  cbn zeta. split; [|split].
  - destruct (synthesize_handled io req w) as [_|resp _|_|m text n o _ _ _ _ _];
      [done..|].
    intros f. apply delivered_keeps_files.
  - intros f c mimetype name Hr.
    destruct (synthesize_handled io req w) as [_|resp Hresp|Hm|m text n o _ _ _ _ _];
      cbn [fst snd] in *.
    + discriminate Hr.
    + destruct Hresp as [->|[e ->]]; discriminate Hr.
    + discriminate Hr.
    + unfold served in Hr. unfold delivered. cbn [tmp_dir].
      destruct (torchaudio_save_ok io), (send_file_ok io); try discriminate Hr.
      injection Hr as <- <- <- <-.
      split; [apply fresh_file_unused|]. split; [apply lookup_insert_eq|eauto].
  - intros m text n o Hreq Hk Hlen Hn Hm.
    pose proof (py_len_nonneg text n Hlen) as Hpos.
    rewrite (synthesize_sized io req m text n w o (2205 * n) Hreq Hk Hlen Hn Hm)
      by (apply audio_length_upto_1000 || lia; lia).
    split; [apply fresh_file_unused|].
    unfold delivered. cbn [snd tmp_dir].
    destruct (torchaudio_save_ok io); rewrite ?lookup_insert_is_Some'; tauto.
Qed.

(** C6 fails on the code: one request is served on a server with no
    temporary file, and the file is still there afterwards, with the
    audio in it.  When [torchaudio.save] raises, the request is answered
    with status 500 and the empty file stays. *)
Lemma temporary_file_left_on_disk :
  let req := post {[ "text" := JStr "hi" ]} in
  let served := synthesize all_fine req ready in
  let aborted := synthesize (Backend false true) req ready in
  tmp_dir ready = ∅ ∧
  served.1 = Ret (File 0%nat (Wav (drawn 4410 ready) 22050) "audio/wav" "speech.wav") ∧
  tmp_dir served.2 !! 0%nat = Some (Wav (drawn 4410 ready) 22050) ∧
  aborted.1 = Ret (Error 500 (LibraryError "torchaudio")) ∧
  tmp_dir aborted.2 !! 0%nat = Some Empty.
Proof.
  cbn zeta. split; [reflexivity|].
  rewrite (synthesize_sized all_fine (post _) _ (JStr "hi") 2 ready kokoro_v1 4410 eq_refl)
    by (reflexivity || lia).
  rewrite (synthesize_sized (Backend false true) (post _) _ (JStr "hi") 2 ready kokoro_v1 4410 eq_refl)
    by (reflexivity || lia).
  repeat split; reflexivity.
Qed.

(** *** The empty text *)

Lemma too_long_is_not_required : text_too_long ≠ text_required.
Proof.
  intros Heq.
  apply (f_equal (λ r, match r with
                       | Json _ (JObj m) => m !! "error"
                       | _ => None
                       end)) in Heq.
  vm_compute in Heq. discriminate Heq.
Qed.

Lemma served_is_no_rejection io k w :
  served io k w ≠ text_required ∧ served io k w ≠ text_too_long.
Proof.
  unfold served. by destruct (torchaudio_save_ok io), (send_file_ok io).
Qed.

(** C10: a body whose [text] entry is the empty string is neither
    missing text nor too long.  With a model loaded the handler goes
    through synthesis, which returns an empty buffer at 22050 Hz, and
    answers with the wav file of that buffer when [torchaudio.save] and
    [send_file] go through.  And the answer ["Text is required"] is given
    to no body that is an object with a [text] entry. *)
Theorem empty_text_is_served io req m w o :
  get_json req = Ret (JObj m) →
  m !! "text" = Some (JStr "") →
  model w = Some o →
  (∀ voice_id speed,
     (synthesize_speech (JStr "") voice_id speed w).1 = Ret ([], 22050)) ∧
  synthesize io req w = (Ret (served io 0 w), delivered io 0 w) ∧
  served io 0 w ≠ text_required ∧
  served io 0 w ≠ text_too_long ∧
  (torchaudio_save_ok io = true → send_file_ok io = true →
   served io 0 w = File (fresh (dom (tmp_dir w))) (Wav [] 22050) "audio/wav" "speech.wav") ∧
  (∀ io' req' w' m' text,
     get_json req' = Ret (JObj m') →
     m' !! "text" = Some text →
     (synthesize io' req' w').1 ≠ Ret text_required).
Proof.
  intros Hreq Hk Hm. split; [|split; [|split; [|split; [|split]]]].
  - intros voice_id speed.
    by rewrite (synthesize_speech_sized (JStr "") 0 voice_id speed w o 0).
  - by apply (synthesize_sized io req m (JStr "") 0 w o 0).
  - apply served_is_no_rejection.
  - apply served_is_no_rejection.
  - intros Hsave Hsend. unfold served. by rewrite Hsave, Hsend.
  - intros io' req' w' m' text Hreq' Hk'.
    destruct (synthesize_handled io' req' w')
      as [Hno|resp Hresp|Hm'|m2 text2 n o2 _ _ _ _ _]; cbn [fst].
    + destruct (Hno m' text Hreq' Hk').
    + intros [= ->]. destruct Hresp as [Hl|[e He]]; [|done].
      by apply too_long_is_not_required.
    + done.
    + intros [= Hr]. by apply (proj1 (served_is_no_rejection io' (2205 * n) w')).
Qed.

Lemma empty_text_is_served_witness :
  let req := post {[ "text" := JStr "" ]} in
  (∀ voice_id speed,
     (synthesize_speech (JStr "") voice_id speed ready).1 = Ret ([], 22050)) ∧
  synthesize all_fine req ready = (Ret (served all_fine 0 ready), delivered all_fine 0 ready) ∧
  served all_fine 0 ready ≠ text_required ∧
  served all_fine 0 ready ≠ text_too_long ∧
  (torchaudio_save_ok all_fine = true → send_file_ok all_fine = true →
   served all_fine 0 ready
     = File (fresh (dom (tmp_dir ready))) (Wav [] 22050) "audio/wav" "speech.wav") ∧
  (∀ io' req' w' m' text,
     get_json req' = Ret (JObj m') →
     m' !! "text" = Some text →
     (synthesize io' req' w').1 ≠ Ret text_required).
Proof.
  apply (empty_text_is_served all_fine (post {[ "text" := JStr "" ]})
           {[ "text" := JStr "" ]} ready kokoro_v1).
  - reflexivity.
  - vm_compute. reflexivity.
  - reflexivity.
Defined.

End KokoroProps.

(** * More on the synthesis server *)

Module ServerProps.
Import Json Kokoro KokoroProps.

Lemma status_of_served io k w :
  status_of (served io k w) = 200 ∧
    served io k w
      = File (fresh (dom (tmp_dir w))) (Wav (drawn k w) 22050) "audio/wav" "speech.wav"
  ∨ status_of (served io k w) = 500.
Proof. unfold served. destruct (torchaudio_save_ok io), (send_file_ok io); cbn; eauto. Qed.

Lemma map_seq_from {A} (f : nat → A) a b n :
  map (λ i, f (a + i)%nat) (seq b n) = map f (seq (a + b) n).
Proof.
  revert b. induction n as [|n IH]; intros b; [done|].
  cbn. f_equal. by rewrite IH, Nat.add_succ_r.
Qed.

Lemma drawn_app k1 k2 w :
  0 ≤ k1 → 0 ≤ k2 →
  drawn k1 w ++ drawn k2 (after_synthesis k1 w) = drawn (k1 + k2) w.
Proof.
  intros Hk1 Hk2. unfold drawn, after_synthesis. cbn [np_random].
  rewrite Z2Nat.inj_add, seq_app, map_app by lia. f_equal.
  by rewrite map_seq_from, Nat.add_comm.
Qed.

(** ** What every request gets *)

(** X1.  The handler never lets an exception out: every request, in
    every state and whatever the libraries do, is answered, with status
    200, 400 or 500; and an answer with status 200 is always the wav file
    at 22050 Hz under the name [speech.wav]. *)
Theorem synthesize_always_answers io req w :
  ∃ resp,
    (synthesize io req w).1 = Ret resp ∧
    (status_of resp = 200 ∨ status_of resp = 400 ∨ status_of resp = 500) ∧
    (status_of resp = 200 →
     ∃ f audio, resp = File f (Wav audio 22050) "audio/wav" "speech.wav").
Proof.
  destruct (synthesize_handled io req w) as [_|resp Hresp|_|m text n o _ _ _ _ _].
  - exists text_required. cbn. split; [done|]. split; [tauto|done].
  - exists resp. split; [done|].
    destruct Hresp as [->|[e ->]]; cbn; (split; [tauto|done]).
  - eexists. split; [done|]. cbn. split; [tauto|done].
  - exists (served io (2205 * n) w). split; [done|].
    destruct (status_of_served io (2205 * n) w) as [[Hs Hf]|Hs]; rewrite Hs.
    + split; [tauto|]. intros _. rewrite Hf. eauto.
    + split; [tauto|done].
Qed.

(** X2.  No request changes the loaded model, the loaded configuration
    or the artifact files, and the trace only grows. *)
Theorem synthesize_keeps_model io req w :
  let w' := (synthesize io req w).2 in
  model w' = model w ∧
  config w' = config w ∧
  model_file w' = model_file w ∧
  config_file w' = config_file w ∧
  ∃ events, trace w' = trace w ++ events.
Proof.
  cbn zeta.
  destruct (synthesize_handled io req w) as [_|resp _|_|m text n o _ _ _ _ _];
    cbn [snd]; repeat split; try done.
  - exists []. by rewrite app_nil_r.
  - exists []. by rewrite app_nil_r.
  - by exists [ReadModel].
  - unfold delivered. cbn [trace]. eauto.
Qed.

(** X3.  A request answered with status 400 has no effect at all: the
    world after it, trace included, is the world before it. *)
Theorem bad_request_changes_nothing io req w resp :
  (synthesize io req w).1 = Ret resp →
  status_of resp = 400 →
  (synthesize io req w).2 = w.
Proof.
  destruct (synthesize_handled io req w) as [_|resp' _|_|m text n o _ _ _ _ _];
    cbn [fst snd]; try done.
  - by intros [= <-].
  - intros [= <-] Hs.
    destruct (status_of_served io (2205 * n) w) as [[Hs' _]|Hs']; rewrite Hs' in Hs; lia.
Qed.

Lemma bad_request_changes_nothing_witness :
  (synthesize all_fine (post {[ "voice_id" := JStr "default" ]}) ready).2 = ready.
Proof.
  apply (bad_request_changes_nothing all_fine (post {[ "voice_id" := JStr "default" ]})
           ready text_required).
  - vm_compute. reflexivity.
  - reflexivity.
Defined.

(** ** Validation *)

(** X4.  While no model is loaded, a request whose text passes both
    checks is answered with status 500 and ["Model not loaded"].  The
    only thing that happened is the read of the global: no sample is
    drawn and no temporary file is made. *)
Theorem not_loaded_is_500 io req m text n w :
  get_json req = Ret (JObj m) →
  m !! "text" = Some text →
  py_len text = ret n →
  n ≤ 1000 →
  model w = None →
  let r := synthesize io req w in
  r.1 = Ret (Error 500 (RuntimeError "Model not loaded")) ∧
  trace r.2 = trace w ++ [ReadModel] ∧
  tmp_dir r.2 = tmp_dir w ∧
  np_random r.2 = np_random w.
Proof.
  intros Hreq Hk Hlen Hn Hm. cbn zeta.
  by rewrite (synthesize_not_loaded io req m text n w Hreq Hk Hlen Hn Hm).
Qed.

Lemma not_loaded_is_500_witness :
  let r := synthesize all_fine (post {[ "text" := JStr "hello" ]}) installed in
  r.1 = Ret (Error 500 (RuntimeError "Model not loaded")) ∧
  trace r.2 = trace installed ++ [ReadModel] ∧
  tmp_dir r.2 = tmp_dir installed ∧
  np_random r.2 = np_random installed.
Proof.
  apply (not_loaded_is_500 all_fine (post {[ "text" := JStr "hello" ]})
           {[ "text" := JStr "hello" ]} (JStr "hello") 5 installed).
  - reflexivity.
  - vm_compute. reflexivity.
  - reflexivity.
  - lia.
  - reflexivity.
Defined.

(** X5.  The length limit is sharp: a text with a length is answered
    with the too-long error exactly when it has more than 1000 items; a
    text of exactly 1000 is let through. *)
Theorem too_long_iff io req m text n w :
  get_json req = Ret (JObj m) →
  m !! "text" = Some text →
  py_len text = ret n →
  (synthesize io req w).1 = Ret text_too_long ↔ 1000 < n.
Proof.
  intros Hreq Hk Hlen. split.
  - intros Hr. destruct (Z.lt_ge_cases 1000 n) as [|Hn]; [done|]. exfalso.
    destruct (model w) as [o|] eqn:Hm.
    + pose proof (py_len_nonneg text n Hlen) as Hpos.
      rewrite (synthesize_sized io req m text n w o (2205 * n) Hreq Hk Hlen Hn Hm) in Hr
        by (apply audio_length_upto_1000 || lia; lia).
      injection Hr as Hr. by apply (proj2 (served_is_no_rejection io (2205 * n) w)).
    + by rewrite (synthesize_not_loaded io req m text n w Hreq Hk Hlen Hn Hm) in Hr.
  - intros Hn. rewrite (synthesize_object io req m text w Hreq Hk), Hlen. run.
    apply Z.ltb_lt in Hn. by rewrite Hn.
Qed.

Lemma too_long_iff_witness :
  let thousand := string_of_list_ascii (repeat "a"%char 1000) in
  (synthesize all_fine (post {[ "text" := JStr thousand ]}) ready).1 = Ret text_too_long
  ↔ 1000 < 1000.
Proof.
  apply (too_long_iff all_fine _ {[ "text" := JStr (string_of_list_ascii (repeat "a"%char 1000)) ]}
           (JStr (string_of_list_ascii (repeat "a"%char 1000)))).
  - reflexivity.
  - vm_compute. reflexivity.
  - vm_compute. reflexivity.
Defined.

(** X6.  The text need not be a string.  A text that has no length (a
    number, a boolean, null) is answered with status 500 and changes
    nothing; a text that is an array is synthesized like a string, with
    2205 samples for each of its items. *)
Theorem text_of_other_types io req m text w :
  get_json req = Ret (JObj m) →
  m !! "text" = Some text →
  (py_len text = raise TypeError →
   synthesize io req w = (Ret (Error 500 TypeError), w)) ∧
  (∀ items o,
     text = JArr items →
     Z.of_nat (length items) ≤ 1000 →
     model w = Some o →
     synthesize io req w
       = (Ret (served io (2205 * Z.of_nat (length items)) w),
          delivered io (2205 * Z.of_nat (length items)) w)).
Proof.
  intros Hreq Hk. split.
  - intros Hlen. rewrite (synthesize_object io req m text w Hreq Hk), Hlen. by run.
  - intros items o -> Hn Hm.
    apply (synthesize_sized io req m (JArr items) (Z.of_nat (length items)) w o);
      try done.
    + apply audio_length_upto_1000. lia.
    + lia.
Qed.

Lemma text_of_other_types_witness :
  let body : gmap string json := {[ "text" := JInt 7 ]} in
  (py_len (JInt 7) = raise TypeError →
   synthesize all_fine (post body) ready = (Ret (Error 500 TypeError), ready)) ∧
  (∀ items o,
     JInt 7 = JArr items →
     Z.of_nat (length items) ≤ 1000 →
     model ready = Some o →
     synthesize all_fine (post body) ready
       = (Ret (served all_fine (2205 * Z.of_nat (length items)) ready),
          delivered all_fine (2205 * Z.of_nat (length items)) ready)).
Proof.
  apply (text_of_other_types all_fine (post {[ "text" := JInt 7 ]}) {[ "text" := JInt 7 ]}).
  - reflexivity.
  - vm_compute. reflexivity.
Defined.

(** X7.  A body that is not a JSON object never reaches synthesis: it
    is answered with the missing-text error (always so when the body is
    null, false, zero, or an empty string or array) or with status 500,
    and the world is left as it was. *)
Theorem non_object_body_not_served io req data w :
  get_json req = Ret data →
  (∀ m, data ≠ JObj m) →
  (∃ resp, synthesize io req w = (Ret resp, w) ∧
           (resp = text_required ∨ resp = Error 500 TypeError)) ∧
  (truthy data = false → synthesize io req w = (Ret text_required, w)).
Proof.
  intros Hreq Hobj.
  destruct data as [|b|k|x|s|l|m]; [..|by destruct (Hobj m)];
    unfold synthesize; rewrite Hreq; run; unfold py_in, py_getitem; cbn [truthy negb].
  - split; eauto.
  - destruct b; run; (split; [eauto|done]).
  - destruct (k =? 0); run; (split; [eauto|done]).
  - destruct (PyFloat.truthy x); run; (split; [eauto|done]).
  - destruct (String.eqb s ""); run; [split; eauto|].
    destruct (substring_of "text" s); run; (split; [eauto|done]).
  - destruct l as [|v l]; run; [split; eauto|].
    destruct (existsb (is_str "text") (v :: l)); run; (split; [eauto|done]).
Qed.

Lemma non_object_body_not_served_witness :
  (∃ resp, synthesize all_fine (Request (Ret (JStr "some text"))) ready = (Ret resp, ready) ∧
           (resp = text_required ∨ resp = Error 500 TypeError)) ∧
  (truthy (JStr "some text") = false →
   synthesize all_fine (Request (Ret (JStr "some text"))) ready = (Ret text_required, ready)).
Proof.
  apply (non_object_body_not_served all_fine (Request (Ret (JStr "some text")))
           (JStr "some text") ready).
  - reflexivity.
  - intros m. discriminate.
Defined.

(** ** The generator and the temporary directory *)

(** X8.  Two calls of [synthesize_speech] in a row share out the
    generator's stream: the first buffer followed by the second is the
    run of draws that one call for both texts together would have taken,
    so no draw is used twice and none is skipped. *)
Theorem successive_calls_take_consecutive_draws
    text1 n1 voice1 speed1 text2 n2 voice2 speed2 w o :
  py_len text1 = ret n1 → n1 ≤ 1000 →
  py_len text2 = ret n2 → n2 ≤ 1000 →
  model w = Some o →
  ∃ audio1 audio2 w1,
    synthesize_speech text1 voice1 speed1 w = (Ret (audio1, 22050), w1) ∧
    (synthesize_speech text2 voice2 speed2 w1).1 = Ret (audio2, 22050) ∧
    audio1 ++ audio2 = drawn (2205 * (n1 + n2)) w.
Proof.
  intros Hlen1 Hn1 Hlen2 Hn2 Hm.
  pose proof (py_len_nonneg text1 n1 Hlen1) as Hpos1.
  pose proof (py_len_nonneg text2 n2 Hlen2) as Hpos2.
  exists (drawn (2205 * n1) w), (drawn (2205 * n2) (after_synthesis (2205 * n1) w)),
    (after_synthesis (2205 * n1) w).
  rewrite (synthesize_speech_sized text1 n1 _ _ w o (2205 * n1) Hlen1 Hm)
    by (apply audio_length_upto_1000 || lia; lia).
  rewrite (synthesize_speech_sized text2 n2 _ _ (after_synthesis (2205 * n1) w) o
             (2205 * n2) Hlen2 Hm)
    by (apply audio_length_upto_1000 || lia; lia).
  repeat split. rewrite drawn_app by lia. f_equal. lia.
Qed.

Lemma successive_calls_take_consecutive_draws_witness :
  ∃ audio1 audio2 w1,
    synthesize_speech (JStr "hi") (JStr "default") (JFloat PyFloat.one) ready
      = (Ret (audio1, 22050), w1) ∧
    (synthesize_speech (JStr "you") (JStr "male1") (JFloat PyFloat.one) w1).1
      = Ret (audio2, 22050) ∧
    audio1 ++ audio2 = drawn (2205 * (2 + 3)) ready.
Proof.
  apply (successive_calls_take_consecutive_draws (JStr "hi") 2 _ _ (JStr "you") 3 _ _
           ready kokoro_v1).
  - reflexivity.
  - lia.
  - reflexivity.
  - lia.
  - reflexivity.
Defined.

Lemma delivered_tmp_dir io k w :
  tmp_dir (delivered io k w)
    = <[ fresh (dom (tmp_dir w)) :=
           if torchaudio_save_ok io then Wav (drawn k w) sample_rate else Empty ]>
        (tmp_dir w).
Proof.
  unfold delivered. cbn [tmp_dir].
  destruct (torchaudio_save_ok io); [apply insert_insert_eq|done].
Qed.

(** X9.  Each request that reaches synthesis with a model loaded adds
    exactly one file to the temporary directory and touches no other:
    the directory has one entry more, every file that was there is there
    with the same content, and a second such request gets a file of
    another name. *)
Theorem served_request_adds_one_file io req m text n w o :
  get_json req = Ret (JObj m) →
  m !! "text" = Some text →
  py_len text = ret n →
  n ≤ 1000 →
  model w = Some o →
  let w1 := (synthesize io req w).2 in
  let w2 := (synthesize io req w1).2 in
  size (tmp_dir w1) = S (size (tmp_dir w)) ∧
  (∀ f c, tmp_dir w !! f = Some c → tmp_dir w1 !! f = Some c) ∧
  size (tmp_dir w2) = S (S (size (tmp_dir w))) ∧
  fresh (dom (tmp_dir w1)) ≠ fresh (dom (tmp_dir w)).
Proof.
  intros Hreq Hk Hlen Hn Hm. cbn zeta.
  pose proof (py_len_nonneg text n Hlen) as Hpos.
  rewrite (synthesize_sized io req m text n w o (2205 * n) Hreq Hk Hlen Hn Hm)
    by (apply audio_length_upto_1000 || lia; lia).
  cbn [snd].
  rewrite (synthesize_sized io req m text n (delivered io (2205 * n) w) o (2205 * n)
             Hreq Hk Hlen Hn Hm)
    by (apply audio_length_upto_1000 || lia; lia).
  cbn [snd]. rewrite !delivered_tmp_dir.
  assert (size (<[fresh (dom (tmp_dir w)) :=
                   if torchaudio_save_ok io then Wav (drawn (2205 * n) w) sample_rate
                   else Empty]> (tmp_dir w)) = S (size (tmp_dir w))) as Hsize
    by (apply map_size_insert_None, fresh_file_unused).
  split; [done|]. split; [|split].
  - intros f c Hf. rewrite lookup_insert_ne; [done|].
    intros <-. by rewrite fresh_file_unused in Hf.
  - rewrite map_size_insert_None; [by rewrite Hsize|].
    rewrite <-delivered_tmp_dir. apply fresh_file_unused.
  - intros Heq.
    pose proof (fresh_file_unused (delivered io (2205 * n) w)) as Hnew.
    rewrite delivered_tmp_dir in Hnew. rewrite Heq in Hnew.
    by rewrite lookup_insert_eq in Hnew.
Qed.

Lemma served_request_adds_one_file_witness :
  let req := post {[ "text" := JStr "hi" ]} in
  let w1 := (synthesize all_fine req ready).2 in
  let w2 := (synthesize all_fine req w1).2 in
  size (tmp_dir w1) = S (size (tmp_dir ready)) ∧
  (∀ f c, tmp_dir ready !! f = Some c → tmp_dir w1 !! f = Some c) ∧
  size (tmp_dir w2) = S (S (size (tmp_dir ready))) ∧
  fresh (dom (tmp_dir w1)) ≠ fresh (dom (tmp_dir ready)).
Proof.
  apply (served_request_adds_one_file all_fine (post {[ "text" := JStr "hi" ]})
           {[ "text" := JStr "hi" ]} (JStr "hi") 2 ready kokoro_v1).
  - reflexivity.
  - vm_compute. reflexivity.
  - reflexivity.
  - lia.
  - reflexivity.
Defined.

(** ** Loading *)

(** Every way [load_model] can go, by what is on disk. *)
Lemma load_model_cases w :
  match model_file w, config_file w with
  | None, _ | _, None => load_model w = (Raise files_missing, w)
  | Some _, Some Malformed =>
      load_model w = (Raise (LibraryError "json"), log JsonLoadConfig w)
  | Some Corrupt, Some (Parsed cfg) =>
      load_model w = (Raise (LibraryError "torch"),
                      log TorchLoad (set_config (Some cfg) (log JsonLoadConfig w)))
  | Some (Pickled o), Some (Parsed cfg) =>
      load_model w = (if has_eval o then Ret tt else Raise AttributeError, loaded cfg o w)
  | Some PickledNone, Some (Parsed cfg) =>
      load_model w = (Raise AttributeError, loaded_none cfg w)
  end.
Proof.
  unfold load_model, json_load_config, torch_load, model_eval. run.
  destruct (model_file w) as [[|o|]|] eqn:Hm, (config_file w) as [[|cfg]|] eqn:Hc;
    try reflexivity;
    rewrite ?bool_decide_eq_true_2 by eauto; cbn [negb orb]; run;
    rewrite ?Hc; run; rewrite ?Hm; run; try reflexivity.
  - destruct (has_eval o); run; unfold loaded; same_world.
  - unfold loaded_none; same_world.
Qed.

(** X10.  [load_model] returns normally exactly when both artifacts are
    on disk, the configuration parses, the model file unpickles and the
    object in it has an [eval] method. *)
Theorem load_model_succeeds_iff w :
  (load_model w).1 = Ret tt ↔
  ∃ cfg o, config_file w = Some (Parsed cfg) ∧
           model_file w = Some (Pickled o) ∧
           has_eval o = true.
Proof.
  pose proof (load_model_cases w) as Hcases. split.
  - intros Hr.
    destruct (model_file w) as [[|o|]|], (config_file w) as [[|cfg]|];
      rewrite Hcases in Hr; try discriminate Hr.
    destruct (has_eval o) eqn:He; [eauto|discriminate Hr].
  - intros (cfg & o & Hc & Hm & He). rewrite Hc, Hm, He in Hcases. by rewrite Hcases.
Qed.

(** X11.  Both files are looked for before anything is read: when
    either is missing, [load_model] raises [FileNotFoundError] and the
    world is as before, so a model loaded earlier stays loaded. *)
Theorem load_model_missing_files w :
  model_file w = None ∨ config_file w = None →
  load_model w = (Raise files_missing, w).
Proof.
  pose proof (load_model_cases w) as Hcases.
  intros [Hm|Hc].
  - by rewrite Hm in Hcases.
  - rewrite Hc in Hcases. by destruct (model_file w) as [[|?|]|].
Qed.

Lemma load_model_missing_files_witness :
  load_model (World (Some kokoro_v1) None counting None (Some (Parsed JNull)) ∅ [])
    = (Raise files_missing,
       World (Some kokoro_v1) None counting None (Some (Parsed JNull)) ∅ []).
Proof.
  apply (load_model_missing_files
           (World (Some kokoro_v1) None counting None (Some (Parsed JNull)) ∅ [])).
  left. reflexivity.
Defined.

(** X12.  A load that fails half way is not undone.  When the
    configuration parses but the model file does not unpickle, the call
    raises with the global [config] already replaced and the global
    [model] as it was; when the configuration does not parse, both
    globals are as they were. *)
Theorem load_model_partial_update w :
  (∀ cfg, config_file w = Some (Parsed cfg) →
          model_file w = Some Corrupt →
          (load_model w).1 = Raise (LibraryError "torch") ∧
          config (load_model w).2 = Some cfg ∧
          model (load_model w).2 = model w) ∧
  (config_file w = Some Malformed →
   is_Some (model_file w) →
   (load_model w).1 = Raise (LibraryError "json") ∧
   config (load_model w).2 = config w ∧
   model (load_model w).2 = model w).
Proof.
  pose proof (load_model_cases w) as Hcases. split.
  - intros cfg Hc Hm. rewrite Hc, Hm in Hcases. by rewrite Hcases.
  - intros Hc [a Hm]. rewrite Hc, Hm in Hcases. destruct a; by rewrite Hcases.
Qed.

(** X13.  What a load that fails at [model.eval()] leaves behind
    depends on the object in the file.  An object without an [eval] method
    is already stored in the global [model] when the call raises: in the
    state the call leaves, [health_check] reports the model as loaded and
    [synthesize] serves the request.  Had the file held a pickled [None]
    instead, the call raises as well and leaves the global [None], also
    when a model was loaded before: [health_check] reports no model and
    [synthesize] answers ["Model not loaded"]. *)
Theorem failed_load_leaves_model_set io req m text n w cfg o :
  config_file w = Some (Parsed cfg) →
  model_file w = Some (Pickled o) →
  has_eval o = false →
  get_json req = Ret (JObj m) →
  m !! "text" = Some text →
  py_len text = ret n →
  n ≤ 1000 →
  let w1 := (load_model w).2 in
  let w0 := (load_model (replace_artifact PickledNone w)).2 in
  ((load_model w).1 = Raise AttributeError ∧
   model w1 = Some o ∧
   (∃ resp, (health_check w1).1 = Ret resp ∧ model_loaded resp = Some (JBool true)) ∧
   (synthesize io req w1).1 = Ret (served io (2205 * n) w1)) ∧
  ((load_model (replace_artifact PickledNone w)).1 = Raise AttributeError ∧
   model w0 = None ∧
   (∃ resp, (health_check w0).1 = Ret resp ∧ model_loaded resp = Some (JBool false)) ∧
   (synthesize io req w0).1 = Ret (Error 500 (RuntimeError "Model not loaded"))).
Proof.
  intros Hc Hm He Hreq Hk Hlen Hn. cbn zeta.
  pose proof (py_len_nonneg text n Hlen) as Hpos. split.
  - pose proof (load_model_cases w) as Hcases. rewrite Hc, Hm, He in Hcases.
    rewrite Hcases. cbn [fst snd]. split; [done|]. split; [done|]. split.
    + eexists. split; [reflexivity|]. cbn [model_loaded model loaded].
      rewrite lookup_insert_ne by done. apply lookup_insert_eq.
    + by rewrite (synthesize_sized io req m text n (loaded cfg o w) o (2205 * n)
                    Hreq Hk Hlen Hn)
        by first [done | apply audio_length_upto_1000; lia | lia].
  - pose proof (load_model_cases (replace_artifact PickledNone w)) as Hcases.
    cbn [replace_artifact model_file config_file] in Hcases. rewrite Hc in Hcases.
    rewrite Hcases. cbn [fst snd]. split; [done|]. split; [done|]. split.
    + eexists. split; [reflexivity|]. cbn [model_loaded model loaded_none].
      rewrite lookup_insert_ne by done. apply lookup_insert_eq.
    + by rewrite (synthesize_not_loaded io req m text n _ Hreq Hk Hlen Hn).
Qed.

Lemma failed_load_leaves_model_set_witness :
  let w := World (Some kokoro_v1) None counting (Some (Pickled (TorchObject 3 false)))
                 (Some (Parsed JNull)) ∅ [] in
  let req := post {[ "text" := JStr "hi" ]} in
  let w1 := (load_model w).2 in
  let w0 := (load_model (replace_artifact PickledNone w)).2 in
  ((load_model w).1 = Raise AttributeError ∧
   model w1 = Some (TorchObject 3 false) ∧
   (∃ resp, (health_check w1).1 = Ret resp ∧ model_loaded resp = Some (JBool true)) ∧
   (synthesize all_fine req w1).1 = Ret (served all_fine (2205 * 2) w1)) ∧
  ((load_model (replace_artifact PickledNone w)).1 = Raise AttributeError ∧
   model w0 = None ∧
   (∃ resp, (health_check w0).1 = Ret resp ∧ model_loaded resp = Some (JBool false)) ∧
   (synthesize all_fine req w0).1 = Ret (Error 500 (RuntimeError "Model not loaded"))).
Proof.
  apply (failed_load_leaves_model_set all_fine (post {[ "text" := JStr "hi" ]})
           {[ "text" := JStr "hi" ]} (JStr "hi") 2
           (World (Some kokoro_v1) None counting (Some (Pickled (TorchObject 3 false)))
                  (Some (Parsed JNull)) ∅ [])
           JNull (TorchObject 3 false)).
  - reflexivity.
  - reflexivity.
  - reflexivity.
  - reflexivity.
  - vm_compute. reflexivity.
  - reflexivity.
  - lia.
Defined.

(** X14.  [load_model] reads the disk and writes the two globals and
    nothing else: the artifact files, the temporary directory and the
    random generator are the same after every call, and the trace only
    grows. *)
Theorem load_model_frame w :
  let w' := (load_model w).2 in
  model_file w' = model_file w ∧
  config_file w' = config_file w ∧
  tmp_dir w' = tmp_dir w ∧
  np_random w' = np_random w ∧
  ∃ events, trace w' = trace w ++ events.
Proof.
  cbn zeta. pose proof (load_model_cases w) as Hcases.
  destruct (model_file w) as [[|o|]|] eqn:Hm, (config_file w) as [[|cfg]|] eqn:Hc;
    rewrite Hcases; cbn [snd]; repeat split; try done;
    try (exists []; by rewrite app_nil_r); cbn [trace log set_config loaded loaded_none]; eauto.
  rewrite <-app_assoc. eauto.
Qed.

(** ** Health and test endpoints *)

Lemma health_check_runs w :
  ∃ resp, health_check w = (Ret resp, log ReadModel w) ∧
          status_of resp = 200 ∧
          model_loaded resp = Some (JBool (bool_decide (is_Some (model w)))).
Proof.
  eexists. split; [reflexivity|]. split; [reflexivity|].
  cbn [model_loaded]. rewrite lookup_insert_ne by done. apply lookup_insert_eq.
Qed.

(** X15.  The health check answers with status 200 in every state and
    only reads the global.  What it reports follows [load_model]: true
    after a call that returned normally, and still false after a call on
    a server without a model that stopped at a missing file. *)
Theorem health_follows_load w :
  (∃ resp, health_check w = (Ret resp, log ReadModel w) ∧
           status_of resp = 200 ∧
           model_loaded resp = Some (JBool (bool_decide (is_Some (model w))))) ∧
  ((load_model w).1 = Ret tt →
   ∃ resp, (health_check (load_model w).2).1 = Ret resp ∧
           model_loaded resp = Some (JBool true)) ∧
  (model w = None →
   model_file w = None ∨ config_file w = None →
   ∃ resp, (health_check (load_model w).2).1 = Ret resp ∧
           model_loaded resp = Some (JBool false)).
Proof.
  split; [apply health_check_runs|]. split.
  - intros Hr. pose proof (load_model_cases w) as Hcases.
    destruct (model_file w) as [[|o|]|], (config_file w) as [[|cfg]|];
      rewrite Hcases in Hr |- *; try discriminate Hr.
    destruct (health_check_runs (loaded cfg o w)) as (resp & Hh & _ & Hl).
    exists resp. cbn [snd]. by rewrite Hh.
  - intros Hm Hmissing.
    assert (load_model w = (Raise files_missing, w)) as ->.
    { pose proof (load_model_cases w) as Hcases.
      destruct Hmissing as [Hf|Hf]; rewrite Hf in Hcases; [done|].
      by destruct (model_file w) as [[|?|]|]. }
    destruct (health_check_runs w) as (resp & Hh & _ & Hl).
    exists resp. cbn [snd]. rewrite Hh. split; [done|]. by rewrite Hl, Hm.
Qed.

(** X16.  The test endpoint succeeds exactly when a model is loaded.
    With a model it reports 48510 samples at 22050 Hz, and it takes those
    48510 draws from the generator, so the audio of later requests starts
    further down the stream; without a model it reports
    ["Model not loaded"].  It never makes a temporary file. *)
Theorem test_connection_succeeds_iff_loaded w :
  (∀ o, model w = Some o →
        test_connection w = (Ret (TestSuccess 48510 22050), after_synthesis 48510 w)) ∧
  (model w = None →
   test_connection w
     = (Ret (TestError (RuntimeError "Model not loaded")), log ReadModel w)) ∧
  tmp_dir (test_connection w).2 = tmp_dir w.
Proof.
  assert (∀ o, model w = Some o →
            test_connection w = (Ret (TestSuccess 48510 22050), after_synthesis 48510 w))
    as Hloaded.
  { intros o Hm. unfold test_connection. run.
    rewrite (synthesize_speech_sized (JStr "Hello, this is a test.") 22 _ _ w o 48510)
      by (reflexivity || lia || done).
    run. by rewrite (length_drawn 48510 w). }
  assert (model w = None →
          test_connection w
            = (Ret (TestError (RuntimeError "Model not loaded")), log ReadModel w))
    as Hnot.
  { intros Hm. unfold test_connection. run.
    by rewrite (synthesize_speech_not_loaded _ _ _ w Hm). }
  split; [done|]. split; [done|].
  destruct (model w) as [o|] eqn:Hm.
  - by rewrite (Hloaded o).
  - by rewrite Hnot.
Qed.

End ServerProps.

(** * The set-up scripts *)

Module SetupProps.
Import Json Setup.

(** Unfolding the monad of the scripts. *)
Ltac srun :=
  repeat progress
    (unfold mbind, mret, S_bind, S_ret, Setup.try_except, Setup.bind, Setup.modify,
       Setup.get, Setup.ret, Setup.raise, Setup.exit, print, print_end;
     cbn beta iota zeta delta
       [fs stdin stdout pip_log net_log set_fs set_stdin put log_pip log_net fst snd]).

(** ** The version checks *)

(** X21.  The set-up of vosk never gets past its first step.  The check
    compares [sys.version_info] with the float [3.7], written [(3.7)],
    and a tuple does not compare with a float: on every interpreter
    [check_system_requirements] raises [TypeError] after its first line,
    and so does [main], having printed three lines, run pip for nothing,
    opened no URL and written no file. *)
Theorem vosk_setup_stops_at_version_check h m :
  check_system_requirements h m
    = (Raised TypeError, put (say "Checking system requirements...") m) ∧
  (vosk_main h m).1 = Raised TypeError ∧
  stdout (vosk_main h m).2
    = stdout m ++ [ say "Vosk Speech Recognition Setup";
                    say "===================================";
                    say "Checking system requirements..." ] ∧
  pip_log (vosk_main h m).2 = pip_log m ∧
  net_log (vosk_main h m).2 = net_log m ∧
  fs (vosk_main h m).2 = fs m.
Proof.
  split; [reflexivity|].
  assert (vosk_main h m
          = (Raised TypeError,
             put (say "Checking system requirements...")
               (put (say (times "=" 35)) (put (say "Vosk Speech Recognition Setup") m))))
    as -> by reflexivity.
  cbn [fst snd stdout pip_log net_log fs put].
  repeat split. by rewrite <-!app_assoc.
Qed.

Lemma lex_lt_3_8 major minor rest :
  lex_lt (IInt major :: IInt minor :: rest) [3; 8]
    = Some (bool_decide (major < 3 ∨ major = 3 ∧ minor < 8)).
Proof.
  cbn. destruct (Z.eqb_spec major 3) as [->|Hne].
  - destruct (Z.eqb_spec minor 8) as [->|Hne].
    + destruct rest; cbn; f_equal; symmetry; apply bool_decide_eq_false_2; lia.
    + f_equal. destruct (Z.ltb_spec minor 8);
        symmetry; [apply bool_decide_eq_true_2|apply bool_decide_eq_false_2]; lia.
  - f_equal. destruct (Z.ltb_spec major 3);
      symmetry; [apply bool_decide_eq_true_2|apply bool_decide_eq_false_2]; lia.
Qed.

Lemma check_python_version_run h m major minor rest :
  version_info h = IInt major :: IInt minor :: rest →
  check_python_version h m =
    if bool_decide (major < 3 ∨ major = 3 ∧ minor < 8)
    then (Exited 1, put (say "Error: Python 3.8 or higher is required.") m)
    else (Value tt,
          put (say ("✓ Python " ++ pretty major ++ "." ++ pretty minor ++ " detected")) m).
Proof.
  intros Hv. unfold check_python_version, version_lt. rewrite Hv, lex_lt_3_8.
  by destruct (bool_decide _).
Qed.

(** X22.  The set-up of kokoro compares with the tuple [(3, 8)], and
    that check does what it says: it ends the process with status 1
    exactly for the versions below 3.8, whatever the micro version and
    release level, and lets every other version pass with one line
    printed. *)
Theorem check_python_version_accepts_from_3_8 h m major minor rest :
  version_info h = IInt major :: IInt minor :: rest →
  (major < 3 ∨ major = 3 ∧ minor < 8 →
   check_python_version h m
     = (Exited 1, put (say "Error: Python 3.8 or higher is required.") m)) ∧
  (¬ (major < 3 ∨ major = 3 ∧ minor < 8) →
   check_python_version h m
     = (Value tt,
        put (say ("✓ Python " ++ pretty major ++ "." ++ pretty minor ++ " detected")) m)).
Proof.
  intros Hv. rewrite (check_python_version_run h m major minor rest Hv).
  split; intros Hold.
  - by rewrite bool_decide_eq_true_2.
  - by rewrite bool_decide_eq_false_2.
Qed.

Lemma check_python_version_accepts_from_3_8_witness :
  let h := Host [IInt 3; IInt 7; IInt 17; IStr "final"; IInt 0] "posix"
             (λ _, None) (λ _, Refused EOFError) (λ _ _, ([], None)) (λ a b, a) (λ _, "")
             (λ s, s) 0 (λ _, "") in
  let m := Machine ∅ [] [] [] [] in
  (3 < 3 ∨ 3 = 3 ∧ 7 < 8 →
   check_python_version h m
     = (Exited 1, put (say "Error: Python 3.8 or higher is required.") m)) ∧
  (¬ (3 < 3 ∨ 3 = 3 ∧ 7 < 8) →
   check_python_version h m
     = (Value tt,
        put (say ("✓ Python " ++ pretty 3 ++ "." ++ pretty 7 ++ " detected")) m)).
Proof.
  apply (check_python_version_accepts_from_3_8 _ _ 3 7 [IInt 17; IStr "final"; IInt 0]).
  reflexivity.
Defined.

(** ** Progress of a download *)

(** X23.  The percentage of a download stays between 0 and 100, never
    goes down from one block to the next, and is 100 exactly from the
    block on at which the announced size is reached; when the server
    announces no size, nothing is printed at all. *)
Theorem progress_is_a_percentage filename block_num block_size total_size m :
  0 ≤ block_num → 0 ≤ block_size →
  (total_size ≤ 0 →
   progress_hook filename block_num block_size total_size m = (Value tt, m)) ∧
  (0 < total_size →
   progress_hook filename block_num block_size total_size m
     = (Value tt,
        put (Line (CR ++ "Downloading " ++ filename ++ ": "
                      ++ pretty (percent block_num block_size total_size) ++ "%") "") m) ∧
   0 ≤ percent block_num block_size total_size ≤ 100 ∧
   percent block_num block_size total_size
     ≤ percent (block_num + 1) block_size total_size ∧
   (percent block_num block_size total_size = 100 ↔ total_size ≤ block_num * block_size)).
Proof.
  intros Hn Hbs. unfold progress_hook. split.
  - intros Ht. by destruct (Z.ltb_spec 0 total_size); [lia|].
  - intros Ht. destruct (Z.ltb_spec 0 total_size); [|lia].
    split; [reflexivity|]. unfold percent.
    assert (0 ≤ block_num * block_size * 100 / total_size) by (apply Z.div_pos; nia).
    assert (block_num * block_size * 100 / total_size
            ≤ (block_num + 1) * block_size * 100 / total_size)
      by (apply Z.div_le_mono; nia).
    split; [lia|]. split; [lia|]. split.
    + intros Hp.
      assert (100 ≤ block_num * block_size * 100 / total_size) as Hq by lia.
      pose proof (Z.mul_div_le (block_num * block_size * 100) total_size Ht). nia.
    + intros Hr.
      assert (100 ≤ block_num * block_size * 100 / total_size)
        by (apply Z.div_le_lower_bound; nia).
      lia.
Qed.

Lemma progress_is_a_percentage_witness :
  let m := Machine ∅ [] [] [] [] in
  (20000 ≤ 0 → progress_hook "model.zip" 2 8192 20000 m = (Value tt, m)) ∧
  (0 < 20000 →
   progress_hook "model.zip" 2 8192 20000 m
     = (Value tt,
        put (Line (CR ++ "Downloading " ++ "model.zip" ++ ": "
                      ++ pretty (percent 2 8192 20000) ++ "%") "") m) ∧
   0 ≤ percent 2 8192 20000 ≤ 100 ∧
   percent 2 8192 20000 ≤ percent (2 + 1) 8192 20000 ∧
   (percent 2 8192 20000 = 100 ↔ 20000 ≤ 2 * 8192)).
Proof.
  apply (progress_is_a_percentage "model.zip" 2 8192 20000); lia.
Defined.

(** ** Installing the requirements *)

Lemma install_requirement_step h r m :
  install_requirement h r m =
    match pip_install h r with
    | None => (Value None, put (say ("✓ Installed " ++ r)) (log_pip r m))
    | Some _ => (Value (Some false), put (say ("✗ Failed to install " ++ r)) (log_pip r m))
    end.
Proof. unfold install_requirement, pip. srun. by destruct (pip_install h r). Qed.

Lemma install_package_step h r m :
  ∃ m', install_package h r m
          = (Value (if pip_install h r is None then None else Some false), m') ∧
        pip_log m' = pip_log m ++ [r] ∧
        fs m' = fs m ∧ net_log m' = net_log m ∧ stdin m' = stdin m.
Proof.
  unfold install_package, pip. srun.
  destruct (pip_install h r) as [msg|]; srun; [|by eexists].
  destruct (substring_of "pyaudio" (lower r)); srun; by eexists.
Qed.

Lemma install_requirement_loop h reqs m :
  ∃ m', for_each reqs (install_requirement h) m
          = (Value (if all_install (pip_install h) reqs then None else Some false), m') ∧
        pip_log m' = pip_log m ++ attempted (pip_install h) reqs ∧
        fs m' = fs m ∧ net_log m' = net_log m ∧ stdin m' = stdin m.
Proof.
  revert m. induction reqs as [|r reqs IH]; intros m.
  - exists m. cbn. by rewrite app_nil_r.
  - cbn [for_each all_install forallb attempted]. srun.
    rewrite install_requirement_step.
    destruct (pip_install h r) as [msg|] eqn:Hr.
    + eexists. split; [reflexivity|]. by cbn.
    + rewrite bool_decide_eq_true_2 by done. cbn [andb].
      destruct (IH (put (say ("✓ Installed " ++ r)) (log_pip r m)))
        as (m' & Hrun & Hpip & Hfs & Hnet & Hin).
      exists m'. unfold all_install in Hrun. rewrite Hrun. split; [done|].
      rewrite Hpip. cbn [pip_log put log_pip]. by rewrite <-app_assoc.
Qed.

Lemma install_package_loop h reqs m :
  ∃ m', for_each reqs (install_package h) m
          = (Value (if all_install (pip_install h) reqs then None else Some false), m') ∧
        pip_log m' = pip_log m ++ attempted (pip_install h) reqs ∧
        fs m' = fs m ∧ net_log m' = net_log m ∧ stdin m' = stdin m.
Proof.
  revert m. induction reqs as [|r reqs IH]; intros m.
  - exists m. cbn. by rewrite app_nil_r.
  - cbn [for_each all_install forallb attempted]. srun.
    destruct (install_package_step h r m) as (m1 & -> & Hpip1 & Hfs1 & Hnet1 & Hin1).
    destruct (pip_install h r) as [msg|] eqn:Hr.
    + exists m1. split; [reflexivity|]. by cbn.
    + rewrite bool_decide_eq_true_2 by done. cbn [andb].
      destruct (IH m1) as (m' & Hrun & Hpip & Hfs & Hnet & Hin).
      exists m'. unfold all_install in Hrun. rewrite Hrun. split; [done|].
      rewrite Hpip, Hpip1, Hfs, Hnet, Hin. by rewrite <-app_assoc.
Qed.

(** X24.  Both scripts install their requirements in the order of the
    list and give up at the first that fails: the answer is [True]
    exactly when pip succeeds on every requirement, pip is run for the
    requirements up to the first failure and for none after it, and
    nothing is written or fetched. *)
Theorem pip_stops_at_first_failure h m :
  let kokoro := install_requirements h m in
  let vosk := install_python_dependencies h m in
  kokoro.1 = Value (all_install (pip_install h) requirements) ∧
  pip_log kokoro.2 = pip_log m ++ attempted (pip_install h) requirements ∧
  fs kokoro.2 = fs m ∧ net_log kokoro.2 = net_log m ∧
  vosk.1 = Value (all_install (pip_install h) vosk_packages) ∧
  pip_log vosk.2 = pip_log m ++ attempted (pip_install h) vosk_packages ∧
  fs vosk.2 = fs m ∧ net_log vosk.2 = net_log m.
Proof.
  cbn zeta. unfold install_requirements, install_python_dependencies. srun.
  destruct (install_requirement_loop h requirements
              (put (say "Installing Python requirements...") m))
    as (m1 & -> & Hpip1 & Hfs1 & Hnet1 & _).
  destruct (install_package_loop h vosk_packages
              (put (say "Installing Python dependencies for Vosk...") m))
    as (m2 & -> & Hpip2 & Hfs2 & Hnet2 & _).
  cbn [fst snd]. rewrite Hpip1, Hfs1, Hnet1, Hpip2, Hfs2, Hnet2.
  repeat split;
    by destruct (all_install (pip_install h) _).
Qed.

(** ** Fetching the kokoro model *)

Lemma download_model_file_step h dir f u m :
  ∃ r m', download_model_file h dir (f, u) m = (Value r, m') ∧
          (∀ p, is_Some (fs m !! p) → is_Some (fs m' !! p)) ∧
          (r = None → is_Some (fs m' !! join h dir f)) ∧
          (r = None ∨ r = Some false) ∧
          (net_log m' = net_log m ∨
           net_log m' = net_log m ++ [u] ∧ fs m !! join h dir f = None).
Proof.
  unfold download_model_file, exists_. srun.
  destruct (fs m !! join h dir f) as [n|] eqn:Hp.
  - rewrite bool_decide_eq_true_2 by eauto. srun.
    eexists _, _. split; [reflexivity|]. cbn. rewrite Hp. naive_solver.
  - rewrite bool_decide_eq_false_2 by (by intros [? ?]). srun.
    unfold urlretrieve. srun.
    destruct (urlopen h u) as [e|size blocks [e|]]; srun.
    + eexists _, _. split; [reflexivity|]. cbn. naive_solver.
    + unfold write_file. srun. rewrite Hp. srun.
      eexists _, _. split; [reflexivity|]. cbn.
      split; [|naive_solver]. intros p Hsome. rewrite lookup_insert_is_Some'. eauto.
    + unfold write_file. srun. rewrite Hp. srun. rewrite lookup_insert_eq. srun.
      eexists _, _. split; [reflexivity|]. cbn. rewrite lookup_insert_eq.
      split; [|naive_solver]. intros p Hsome. rewrite !lookup_insert_is_Some'. eauto.
Qed.

Lemma download_loop h dir files m :
  ∃ r m', for_each files (download_model_file h dir) m = (Value r, m') ∧
          (∀ p, is_Some (fs m !! p) → is_Some (fs m' !! p)) ∧
          (r = None → ∀ f u, (f, u) ∈ files → is_Some (fs m' !! join h dir f)) ∧
          (r = None ∨ r = Some false) ∧
          ∃ new, net_log m' = net_log m ++ new ∧
                 ∀ u, u ∈ new → ∃ f, (f, u) ∈ files ∧ fs m !! join h dir f = None.
Proof.
  revert m. induction files as [|[f u] files IH]; intros m.
  - exists None, m. cbn. split; [done|]. split; [done|]. split; [|split; [eauto|]].
    + intros _ f u Hin. by apply elem_of_nil in Hin.
    + exists []. rewrite app_nil_r. split; [done|]. intros u Hin. by apply elem_of_nil in Hin.
  - cbn [for_each]. srun.
    destruct (download_model_file_step h dir f u m)
      as (r1 & m1 & -> & Hkeep1 & Hthere1 & Hr1 & Hnet1).
    destruct Hr1 as [->| ->].
    + destruct (IH m1) as (r & m' & -> & Hkeep & Hthere & Hr & new & Hnet & Hnew).
      exists r, m'. split; [done|]. split; [eauto|]. split; [|split; [done|]].
      * intros -> f' u' Hin. apply elem_of_cons in Hin as [[= -> ->]|Hin]; [|eauto].
        by apply Hkeep, Hthere1.
      * assert (∀ f', fs m1 !! join h dir f' = None → fs m !! join h dir f' = None) as Hback.
        { intros f' Hn. destruct (fs m !! join h dir f') eqn:Hf; [|done].
          destruct (Hkeep1 (join h dir f')) as [? Hs]; [eauto|]. by rewrite Hn in Hs. }
        destruct Hnet1 as [Hnet1|[Hnet1 Habs]].
        -- exists new. rewrite Hnet, Hnet1. split; [done|].
           intros u' Hin. destruct (Hnew u' Hin) as (f' & Hf' & Hn).
           exists f'. split; [by apply list_elem_of_further|eauto].
        -- exists (u :: new). rewrite Hnet, Hnet1, <-app_assoc. split; [done|].
           intros u' Hin. apply elem_of_cons in Hin as [->|Hin].
           ++ exists f. split; [apply list_elem_of_here|done].
           ++ destruct (Hnew u' Hin) as (f' & Hf' & Hn).
              exists f'. split; [by apply list_elem_of_further|eauto].
    + exists (Some false), m1. split; [done|]. split; [done|]. split; [done|].
      split; [eauto|].
      destruct Hnet1 as [Hnet1|[Hnet1 Habs]].
      * exists []. rewrite app_nil_r. split; [done|]. intros u' Hin.
        by apply elem_of_nil in Hin.
      * exists [u]. split; [done|]. intros u' Hin. apply list_elem_of_singleton in Hin as ->.
        exists f. split; [apply list_elem_of_here|done].
Qed.

(** X25.  [download_kokoro_model] opens a URL only for a file that is
    not on disk yet, in the order of the list, and takes no file away;
    when it answers [True], all three model files are on disk. *)
Theorem download_kokoro_model_fetches_what_is_missing h m :
  let r := download_kokoro_model h m in
  (r.1 = Value true →
   ∀ f u, (f, u) ∈ model_files → is_Some (fs r.2 !! join h "kokoro_models" f)) ∧
  (∃ new, net_log r.2 = net_log m ++ new ∧
          ∀ u, u ∈ new →
               ∃ f, (f, u) ∈ model_files ∧ fs m !! join h "kokoro_models" f = None) ∧
  (∀ p, is_Some (fs m !! p) → is_Some (fs r.2 !! p)).
Proof.
  cbn zeta. unfold download_kokoro_model, mkdir. srun.
  destruct (fs m !! "kokoro_models") as [[|c x]|] eqn:Hdir; srun.
  - destruct (download_loop h "kokoro_models" model_files
                (put (say "Downloading Kokoro model files...") m))
      as (r & m' & -> & Hkeep & Hthere & Hr & new & Hnet & Hnew).
    cbn [fst snd]. split; [|split; [eauto|done]].
    destruct Hr as [->| ->]; [eauto|done].
  - split; [done|]. split; [|done]. exists []. rewrite app_nil_r. split; [done|].
    intros u Hin. by apply elem_of_nil in Hin.
  - destruct (download_loop h "kokoro_models" model_files
                (put (say "Downloading Kokoro model files...")
                   (set_fs (<["kokoro_models" := Dir]> (fs m)) m)))
      as (r & m' & -> & Hkeep & Hthere & Hr & new & Hnet & Hnew).
    cbn [fst snd fs put set_fs net_log] in *. split; [|split].
    + destruct Hr as [->| ->]; [eauto|done].
    + exists new. split; [done|]. intros u Hin. destruct (Hnew u Hin) as (f & Hf & Hn).
      exists f. split; [done|].
      destruct (decide ("kokoro_models" = join h "kokoro_models" f)) as [Heq|Hne].
      * rewrite <-Heq in Hn. by rewrite lookup_insert_eq in Hn.
      * by rewrite lookup_insert_ne in Hn.
    + intros p Hsome. apply Hkeep. rewrite lookup_insert_is_Some'. eauto.
Qed.

(** ** Choosing the vosk models *)

Lemma choose_step h fuel m :
  choose h (Datatypes.S fuel) m =
    match stdin m with
    | [] => (Raised EOFError, put prompt m)
    | raw :: rest =>
        let m1 := set_stdin rest (put prompt m) in
        if is_choice (strip_lower h raw)
        then (Value (selection (strip_lower h raw)), m1)
        else choose h fuel (put (say invalid_choice) m1)
    end.
Proof.
  cbn [choose]. unfold input. srun.
  destruct (stdin m) as [|raw rest]; srun; [done|].
  unfold is_choice, selection.
  destruct (String.eqb (strip_lower h raw) "all"); [done|].
  destruct (String.eqb (strip_lower h raw) "1"); [done|].
  destruct (String.eqb (strip_lower h raw) "2"); [done|].
  destruct (String.eqb (strip_lower h raw) "3"); done.
Qed.

(** X26.  The model menu asks again until it gets one of [all], [1],
    [2], [3] (after stripping blanks and lowering the case): every other
    line is answered with the complaint and a new prompt, the first valid
    line decides the selection, and the lines typed after it are left
    unread.  When the keyboard ends before a valid line, the menu ends
    with [EOFError]. *)
Theorem menu_repeats_until_valid h bad m (fuel : nat) :
  forallb (λ raw, negb (is_choice (strip_lower h raw))) bad = true →
  (length bad < fuel)%nat →
  (∀ good rest,
     stdin m = bad ++ good :: rest →
     is_choice (strip_lower h good) = true →
     choose h fuel m
       = (Value (selection (strip_lower h good)),
          Machine (fs m) rest (stdout m ++ refused_answers (length bad) ++ [prompt])
                  (pip_log m) (net_log m))) ∧
  (stdin m = bad →
   choose h fuel m
     = (Raised EOFError,
        Machine (fs m) [] (stdout m ++ refused_answers (length bad) ++ [prompt])
                (pip_log m) (net_log m))).
Proof.
  revert m fuel. induction bad as [|raw bad IH]; intros m fuel Hbad Hfuel.
  - destruct fuel as [|fuel]; [cbn in Hfuel; lia|]. split.
    + intros good rest Hin Hgood. rewrite choose_step, Hin. cbn [app]. cbn zeta.
      by rewrite Hgood.
    + intros Hin. rewrite choose_step, Hin. unfold put. by rewrite Hin.
  - destruct fuel as [|fuel]; [cbn in Hfuel; lia|].
    cbn [forallb] in Hbad. apply andb_prop in Hbad as [Hraw Hbad].
    apply negb_true_iff in Hraw. cbn [length] in Hfuel.
    split.
    + intros good rest Hin Hgood. rewrite choose_step, Hin. cbn [app]. cbn zeta.
      rewrite Hraw.
      destruct (IH (put (say invalid_choice) (set_stdin (bad ++ good :: rest) (put prompt m)))
                  fuel Hbad) as [Hvalid _]; [lia|].
      rewrite (Hvalid good rest eq_refl Hgood). cbn [fs stdin stdout pip_log net_log put set_stdin].
      f_equal. f_equal. unfold refused_answers. cbn [repeat concat length].
      by rewrite <-!app_assoc.
    + intros Hin. rewrite choose_step, Hin. cbn zeta. rewrite Hraw.
      destruct (IH (put (say invalid_choice) (set_stdin bad (put prompt m)))
                  fuel Hbad) as [_ Heof]; [lia|].
      rewrite (Heof eq_refl). cbn [fs stdin stdout pip_log net_log put set_stdin].
      f_equal. f_equal. unfold refused_answers. cbn [repeat concat length].
      by rewrite <-!app_assoc.
Qed.

Lemma menu_repeats_until_valid_witness :
  let h := online python_3_11 "posix" in
  let m := Machine ∅ ["4"; "yes"; "2"; "all"] [] [] [] in
  (∀ good rest,
     stdin m = ["4"; "yes"] ++ good :: rest →
     is_choice (strip_lower h good) = true →
     choose h 5 m
       = (Value (selection (strip_lower h good)),
          Machine (fs m) rest (stdout m ++ refused_answers (length ["4"; "yes"]) ++ [prompt])
                  (pip_log m) (net_log m))) ∧
  (stdin m = ["4"; "yes"] →
   choose h 5 m
     = (Raised EOFError,
        Machine (fs m) [] (stdout m ++ refused_answers (length ["4"; "yes"]) ++ [prompt])
                (pip_log m) (net_log m))).
Proof.
  apply (menu_repeats_until_valid (online python_3_11 "posix") ["4"; "yes"]
           (Machine ∅ ["4"; "yes"; "2"; "all"] [] [] []) 5).
  - reflexivity.
  - cbn. lia.
Defined.

(** ** Setting up one vosk model *)




(** ** The set-up of kokoro as a whole *)



(** ** The test script *)




(** ** Failed downloads *)

Lemma bind_not_false {A} (c : S A) (k : A → S bool) :
  (∀ a m', (k a m').1 ≠ Value false) → ∀ m, ((c ≫= k) m).1 ≠ Value false.
Proof.
  intros Hk m. unfold mbind, S_bind, bind.
  destruct (c m) as [[a|e|code] m']; [apply Hk|done..].
Qed.

(** X30.  A download that fails is reported on the screen and nowhere
    else.  For a model that is not on disk, a refused connection leaves
    the disk as it was and lets the loop go on to the next model; and
    [setup_vosk_models] never answers [False], whatever happened to the
    downloads. *)
Theorem failed_download_is_not_reported h m :
  (∀ dir info e,
     fs m !! join h dir (model_name info) = None →
     urlopen h (url info) = Refused e →
     (setup_model h dir info m).1 = Value None ∧
     fs (setup_model h dir info m).2 = fs m) ∧
  (setup_vosk_models h m).1 ≠ Value false.
Proof.
  split.
  - intros dir info e Hdir Hopen. unfold setup_model, exists_. srun. rewrite Hdir.
    rewrite bool_decide_eq_false_2 by (by intros [? ?]). srun.
    unfold download_with_progress, urlretrieve. srun. by rewrite Hopen.
  - unfold setup_vosk_models. revert m.
    do 7 (apply bind_not_false; intros ? ?).
    discriminate.
Qed.

End SetupProps.
